(** * DailyTopics: the topic-modelling aggregation pipeline

    A shallow embedding of [src/models/topic_model.py] (the function
    [process_articles_for_topics] and the three backend wrappers it
    dispatches to) and of [scripts/process_topics.py]
    ([process_single_day]), followed by the properties of the pipeline.

    Conventions of the embedding.
    - An article is a Python dict.  The pipeline reads the keys
      [article_id], [title], [newspaper], [url], [summary] and
      [preprocessed_text] and writes the keys [dominant_topic] and
      [topic_distribution]; a field that is [None] is a key that is absent
      from the dict.
    - The articles are shared with the caller and updated in place, so
      every function that touches them returns the list as it is after the
      call, next to its own return value.
    - A call either raises or returns; a Python [None] return value is the
      [None] of an option.
    - scikit-learn, BERTopic, numpy's [argsort], [str.capitalize], the
      wall clock and the iteration order of a [set] are the run-time
      environment of the program and are collected in the record
      [runtime].
    - A float is a rational number: the only arithmetic on floats done
      by the pipeline itself is one division of two counters. *)

From Stdlib Require Import List Ascii String ZArith QArith Lia Bool Permutation Sorted.
From Stdlib Require Import DecimalString.
From stdpp Require Import base option list gmap strings.
Import ListNotations.

Local Open Scope nat_scope.
Local Open Scope string_scope.
Local Open Scope list_scope.

(** * The program *)

(** ** Data *)

Record article := Article {
  article_id : option string;
  title : option string;
  newspaper : option string;
  url : option string;
  summary : option string;
  preprocessed_text : option string;
  dominant_topic : option Z;
  topic_distribution : option (list Q)
}.

(** The dict appended to [articles_by_topic[topic_id]] (lines 218-224). *)
Record article_ref := ArticleRef {
  ref_article_id : string;
  ref_title : string;
  ref_newspaper : string;
  ref_url : string;
  ref_summary : string
}.

(** A topic dict as a backend wrapper returns it: BERTopic adds ['count']. *)
Record raw_topic := RawTopic {
  raw_topic_id : Z;
  raw_words : list string;
  raw_weights : list Q;
  raw_count : option nat
}.

(** A topic dict as it leaves [process_articles_for_topics].  The two
    statistics are Python dicts; their insertion order is the order in
    which [json.dump] writes them, hence association lists. *)
Record topic := Topic {
  topic_id : Z;
  words : list string;
  weights : list Q;
  count : option nat;
  label : string;
  articles : list article_ref;
  newspaper_counts : list (string * nat);
  newspaper_weights : list (string * Q)
}.

Record result := Result {
  date : string;
  algorithm : string;
  num_articles : nat;
  num_topics : nat;
  topics : list topic
}.

(** ** Exceptions *)

Inductive exn := ValueError | LibraryError.

Inductive outcome (A : Type) :=
| Raised (e : exn)
| Returned (a : A).
Arguments Raised {A} e.
Arguments Returned {A} a.

(** ** The run-time environment *)

(** What a fitted scikit-learn model exposes to the wrappers:
    [get_feature_names_out()], [components_] and [transform(...)]. *)
Record sklearn_fit := SklearnFit {
  feature_names : list string;
  components_ : list (list Q);
  transform : list (list Q)
}.

(** What a fitted BERTopic model exposes: the two results of
    [fit_transform], the rows (Topic, Count) of [get_topic_info()] and
    [get_topic]. *)
Record bertopic_fit := BertopicFit {
  fit_topics : list Z;
  fit_probs : list Q;
  topic_info : list (Z * nat);
  get_topic : Z -> list (string * Q)
}.

Record runtime := Runtime {
  SKLEARN_AVAILABLE : bool;
  BERTOPIC_AVAILABLE : bool;
  (** vectorise and fit; [None] when the library raises *)
  LatentDirichletAllocation : list string -> nat -> option sklearn_fit;
  NMF : list string -> nat -> option sklearn_fit;
  BERTopic : list string -> option bertopic_fit;
  (** numpy's [argsort] (default kind: the order among ties is not fixed) *)
  argsort : list Q -> list nat;
  (** [str.capitalize] *)
  capitalize : string -> string;
  (** the order in which [list(set(xs))] enumerates the elements *)
  set_iter : list string -> list string;
  (** [datetime.now().strftime('%Y-%m-%d')] *)
  now : string;
  (** [get_articles_by_date] and [preprocess_article] of the collaborators *)
  get_articles_by_date : string -> list article;
  preprocess_article : article -> string
}.

(** A Python set holds each element once and holds nothing else. *)
Definition set_iter_ok (rt : runtime) : Prop :=
  forall xs : list string,
    List.NoDup (set_iter rt xs) /\ (forall x, In x (set_iter rt xs) <-> In x xs).

(** ** numpy *)

(** [np.argmax]: the index of the first occurrence of the maximum; an
    empty sequence raises [ValueError]. *)
Fixpoint argmax_from (best : Q) (besti i : nat) (l : list Q) : nat :=
  match l with
  | [] => besti
  | x :: l' =>
      if Qle_bool x best then argmax_from best besti (S i) l'
      else argmax_from x i (S i) l'
  end.

Definition argmax (l : list Q) : option nat :=
  match l with
  | [] => None
  | x :: l' => Some (argmax_from x 0 1 l')
  end.

(** ** The backend wrappers *)

(** [topic.argsort()[:-11:-1]]: the last ten indices, last first. *)
Definition top_words_idx (rt : runtime) (row : list Q) : list nat :=
  firstn 10 (rev (argsort rt row)).

(** The loop body of lines 65-72 and 105-112. *)
Definition extract_topic (rt : runtime) (names : list string)
    (topic_idx : nat) (row : list Q) : raw_topic :=
  let idx := top_words_idx rt row in
  {| raw_topic_id := Z.of_nat topic_idx;
     raw_words := map (fun i => nth i names "") idx;
     raw_weights := map (fun i => nth i row 0%Q) idx;
     raw_count := None |}.

(** [for topic_idx, topic in enumerate(components_)] *)
Fixpoint extract_topics (rt : runtime) (names : list string)
    (topic_idx : nat) (rows : list (list Q)) : list raw_topic :=
  match rows with
  | [] => []
  | row :: rows' =>
      extract_topic rt names topic_idx row
        :: extract_topics rt names (S topic_idx) rows'
  end.

(** The wrappers return a pair [(None, None)] when the library is missing
    and a 4-tuple otherwise; of the 4-tuple the caller keeps the topics
    and the document-topic distributions. *)
Inductive sk_return :=
| SkPair
| SkTuple (topics : list raw_topic) (doc_topic_dists : list (list Q)).

Definition perform_sklearn (rt : runtime)
    (fit : list string -> nat -> option sklearn_fit)
    (preprocessed_texts : list string) (n_topics : nat) : outcome sk_return :=
  if negb (SKLEARN_AVAILABLE rt) then Returned SkPair
  else
    match fit preprocessed_texts n_topics with
    | None => Raised LibraryError
    | Some m =>
        Returned (SkTuple (extract_topics rt (feature_names m) 0 (components_ m))
                          (transform m))
    end.

Definition perform_lda_sklearn (rt : runtime) :=
  perform_sklearn rt (LatentDirichletAllocation rt).

Definition perform_nmf (rt : runtime) :=
  perform_sklearn rt (NMF rt).

(** [try_bertopic]: any exception inside the [try] gives four [None]s. *)
Inductive bt_return :=
| BtPair
| BtTuple (topics : option (list raw_topic)) (doc_topics : option (list Z)).

(** Lines 144-153: the outlier topic -1 is skipped. *)
Definition topic_representations (m : bertopic_fit) : list raw_topic :=
  map (fun row : Z * nat =>
         {| raw_topic_id := fst row;
            raw_words := map fst (get_topic m (fst row));
            raw_weights := map snd (get_topic m (fst row));
            raw_count := Some (snd row) |})
      (List.filter (fun row : Z * nat => negb (Z.eqb (fst row) (-1)))
                   (topic_info m)).

Definition try_bertopic (rt : runtime) (preprocessed_texts : list string)
    : bt_return :=
  if negb (BERTOPIC_AVAILABLE rt) then BtPair
  else
    match BERTopic rt preprocessed_texts with
    | None => BtTuple None None
    | Some m => BtTuple (Some (topic_representations m)) (Some (fit_topics m))
    end.

Definition generate_topic_label (rt : runtime) (topic_words : list string)
    : string :=
  match topic_words with
  | [] => "Miscellaneous"
  | w :: _ => capitalize rt w
  end.

(** ** [process_articles_for_topics] *)

(** Python truthiness of [article.get('preprocessed_text')]. *)
Definition truthy (o : option string) : bool :=
  match o with
  | Some s => negb (String.eqb s "")
  | None => false
  end.

(** Line 170. *)
Definition preprocessed_texts_of (arts : list article) : list string :=
  map (fun a => default "" (preprocessed_text a))
      (List.filter (fun a => truthy (preprocessed_text a)) arts).

(** Lines 178-187: which branch of the [if] chain is taken. *)
Inductive backend := BackendNMF | BackendBERTopic | BackendLDA.

Definition select_backend (rt : runtime) (algo : string) : backend :=
  if String.eqb algo "nmf" then BackendNMF
  else if String.eqb algo "bertopic" && BERTOPIC_AVAILABLE rt then BackendBERTopic
  else BackendLDA.

(** The local variables [topics] and [doc_topic_dists] after the [if]
    chain.  The BERTopic branch leaves [doc_topic_dists] unbound, which
    is the [None] of the second component; unpacking a pair into four
    names raises [ValueError]. *)
Definition run_backend (rt : runtime) (algo : string)
    (preprocessed_texts : list string) (n_topics : nat)
    : outcome (option (list raw_topic) * option (list (list Q))) :=
  let unpack (r : outcome sk_return) :=
    match r with
    | Raised e => Raised e
    | Returned SkPair => Raised ValueError
    | Returned (SkTuple ts ds) => Returned (Some ts, Some ds)
    end in
  match select_backend rt algo with
  | BackendNMF => unpack (perform_nmf rt preprocessed_texts n_topics)
  | BackendBERTopic =>
      match try_bertopic rt preprocessed_texts with
      | BtPair => Raised ValueError
      | BtTuple ts _ => Returned (ts, None)
      end
  | BackendLDA => unpack (perform_lda_sklearn rt preprocessed_texts n_topics)
  end.

(** Lines 203-207: the two assignments to the article dict. *)
Definition set_assignment (a : article) (d : Z) (dist : list Q) : article :=
  {| article_id := article_id a;
     title := title a;
     newspaper := newspaper a;
     url := url a;
     summary := summary a;
     preprocessed_text := preprocessed_text a;
     dominant_topic := Some d;
     topic_distribution := Some dist |}.

(** Lines 199-207, from position [i] of the enumeration on.  The articles
    already visited keep their new fields when [np.argmax] raises. *)
Fixpoint assign_topics (i : nat) (arts : list article)
    (doc_topic_dists : list (list Q)) : list article * outcome unit :=
  match arts with
  | [] => ([], Returned tt)
  | a :: rest =>
      if (i <? List.length doc_topic_dists)%nat then
        let row := nth i doc_topic_dists [] in
        match argmax row with
        | None => (a :: rest, Raised ValueError)
        | Some dominant_topic_idx =>
            let (rest', o) := assign_topics (S i) rest doc_topic_dists in
            (set_assignment a (Z.of_nat dominant_topic_idx) row :: rest', o)
        end
      else
        let (rest', o) := assign_topics (S i) rest doc_topic_dists in
        (set_assignment a (-1) [] :: rest', o)
  end.

Definition article_ref_of (a : article) : article_ref :=
  {| ref_article_id := default "" (article_id a);
     ref_title := default "" (title a);
     ref_newspaper := default "" (newspaper a);
     ref_url := default "" (url a);
     ref_summary := default "" (summary a) |}.

(** Lines 210-213. *)
Definition init_groups (ts : list raw_topic) : gmap Z (list article_ref) :=
  fold_left (fun m t => <[raw_topic_id t := []]> m) ts ∅.

(** Lines 216-224, one article. *)
Definition group_step (m : gmap Z (list article_ref)) (a : article)
    : gmap Z (list article_ref) :=
  match dominant_topic a with
  | Some d =>
      match m !! d with
      | Some l => <[d := l ++ [article_ref_of a]]> m
      | None => m
      end
  | None => m
  end.

Definition group_articles (ts : list raw_topic) (arts : list article)
    : gmap Z (list article_ref) :=
  fold_left group_step arts (init_groups ts).

(** Lines 227-232. *)
Definition topic_articles (by_topic : gmap Z (list article_ref)) (t : raw_topic)
    : list article_ref :=
  match by_topic !! raw_topic_id t with
  | Some l => l
  | None => []
  end.

(** Line 235. *)
Definition newspapers_of (rt : runtime) (arts : list article) : list string :=
  set_iter rt (map (fun a => default "" (newspaper a)) arts).

(** [d[k] = v] on an insertion-ordered dict. *)
Fixpoint dict_set {V : Type} (d : list (string * V)) (k : string) (v : V)
    : list (string * V) :=
  match d with
  | [] => [(k, v)]
  | (k', v') :: d' =>
      if String.eqb k' k then (k', v) :: d' else (k', v') :: dict_set d' k v
  end.

Fixpoint dict_get {V : Type} (d : list (string * V)) (k : string) : option V :=
  match d with
  | [] => None
  | (k', v') :: d' => if String.eqb k' k then Some v' else dict_get d' k
  end.

(** Line 242: [article.get('newspaper')] on the dicts of [topic['articles']],
    which all have the key. *)
Definition count_in_topic (refs : list article_ref) (np : string) : nat :=
  List.length (List.filter (fun r => String.eqb (ref_newspaper r) np) refs).

(** Line 246: [article.get('newspaper')] on the input dicts; an absent key
    gives [None], which equals no string. *)
Definition total_articles_from_newspaper (arts : list article) (np : string)
    : nat :=
  List.length
    (List.filter (fun a => match newspaper a with
                           | Some s => String.eqb s np
                           | None => false
                           end) arts).

(** Lines 247-250. *)
Definition weight_of (cnt total : nat) : Q :=
  if (0 <? total)%nat then (Z.of_nat cnt # Pos.of_nat total)%Q else 0%Q.

(** Lines 237-255 for one topic: the two dicts after the inner loop. *)
Definition topic_stats (arts : list article) (refs : list article_ref)
    (newspapers : list string) : list (string * nat) * list (string * Q) :=
  fold_left
    (fun (acc : list (string * nat) * list (string * Q)) np =>
       let cnt := count_in_topic refs np in
       (dict_set (fst acc) np cnt,
        dict_set (snd acc) np
          (weight_of cnt (total_articles_from_newspaper arts np))))
    newspapers ([], []).

(** A topic dict after lines 193-255. *)
Definition finish_topic (rt : runtime) (arts : list article)
    (by_topic : gmap Z (list article_ref)) (newspapers : list string)
    (t : raw_topic) : topic :=
  let refs := topic_articles by_topic t in
  let stats := topic_stats arts refs newspapers in
  {| topic_id := raw_topic_id t;
     words := raw_words t;
     weights := raw_weights t;
     count := raw_count t;
     label := generate_topic_label rt (raw_words t);
     articles := refs;
     newspaper_counts := fst stats;
     newspaper_weights := snd stats |}.

(** Lines 209-266, on the articles as the assignment loop left them. *)
Definition compose (rt : runtime) (algo : string) (ts : list raw_topic)
    (arts : list article) : result :=
  let by_topic := group_articles ts arts in
  let newspapers := newspapers_of rt arts in
  {| date := now rt;
     algorithm := algo;
     num_articles := List.length arts;
     num_topics := List.length ts;
     topics := map (finish_topic rt arts by_topic newspapers) ts |}.

Definition process_articles_for_topics (rt : runtime) (arts : list article)
    (algo : string) (n_topics : nat)
    : list article * outcome (option result) :=
  let preprocessed_texts := preprocessed_texts_of arts in
  match preprocessed_texts with
  | [] => (arts, Returned None)
  | _ :: _ =>
      match run_backend rt algo preprocessed_texts n_topics with
      | Raised e => (arts, Raised e)
      | Returned (None, _) => (arts, Returned None)
      | Returned (Some [], _) => (arts, Returned None)
      | Returned (Some ts, None) => (arts, Returned (Some (compose rt algo ts arts)))
      | Returned (Some ts, Some dists) =>
          match assign_topics 0 arts dists with
          | (arts', Raised e) => (arts', Raised e)
          | (arts', Returned _) =>
              (arts', Returned (Some (compose rt algo ts arts')))
          end
      end
  end.

(** ** [save_topic_results] and [process_single_day] *)

(** The files under [data/topics], by file name. *)
Definition save_topic_results (topic_results : result)
    (files : gmap string result) : string * gmap string result :=
  let filename :=
    ("data/topics/topics_" ++ date topic_results ++ "_"
       ++ algorithm topic_results ++ ".json")%string in
  (filename, <[filename := topic_results]> files).

(** [article_copy['preprocessed_text'] = preprocess_article(article)] *)
Definition preprocess_articles (rt : runtime) (arts : list article)
    : list article :=
  map (fun a =>
         {| article_id := article_id a;
            title := title a;
            newspaper := newspaper a;
            url := url a;
            summary := summary a;
            preprocessed_text := Some (preprocess_article rt a);
            dominant_topic := dominant_topic a;
            topic_distribution := topic_distribution a |}) arts.

Definition process_single_day (rt : runtime) (date_str algo : string)
    (n_topics : nat) (files : gmap string result)
    : outcome (option result) * gmap string result :=
  match get_articles_by_date rt date_str with
  | [] => (Returned None, files)
  | arts =>
      let preprocessed_articles := preprocess_articles rt arts in
      match snd (process_articles_for_topics rt preprocessed_articles
                   algo n_topics) with
      | Raised e => (Raised e, files)
      | Returned (Some topic_results) =>
          (Returned (Some topic_results),
           snd (save_topic_results topic_results files))
      | Returned None => (Returned None, files)
      end
  end.

(** * Vocabulary of the statements *)

(** The keys of an article dict that the pipeline only reads. *)
Definition same_input_fields (a a' : article) : Prop :=
  article_id a' = article_id a /\ title a' = title a
  /\ newspaper a' = newspaper a /\ url a' = url a
  /\ summary a' = summary a /\ preprocessed_text a' = preprocessed_text a.

(** What the loop body leaves in position [i]. *)
Definition assigned_article (doc_topic_dists : list (list Q)) (i : nat)
    (a : article) : article :=
  if (i <? List.length doc_topic_dists)%nat then
    match argmax (nth i doc_topic_dists []) with
    | Some k => set_assignment a (Z.of_nat k) (nth i doc_topic_dists [])
    | None => a
    end
  else set_assignment a (-1) [].

Definition has_dominant (k : Z) (a : article) : bool :=
  match dominant_topic a with
  | Some d => Z.eqb d k
  | None => false
  end.

(** The two dicts the inner loop builds, as functions of the source. *)
Definition counts_of (refs : list article_ref) (newspapers : list string)
    : list (string * nat) :=
  map (fun np => (np, count_in_topic refs np)) newspapers.

Definition weights_of (arts : list article) (refs : list article_ref)
    (newspapers : list string) : list (string * Q) :=
  map (fun np => (np, weight_of (count_in_topic refs np)
                                (total_articles_from_newspaper arts np)))
      newspapers.

(** ** A small corpus and two run-time environments *)

Module Sample.

(** Indices that sort the row in ascending order (insertion sort). *)
Fixpoint insert_idx (row : list Q) (i : nat) (sorted : list nat) : list nat :=
  match sorted with
  | [] => [i]
  | j :: rest =>
      if Qle_bool (nth i row 0%Q) (nth j row 0%Q) then i :: j :: rest
      else j :: insert_idx row i rest
  end.

Definition sort_indices (row : list Q) : list nat :=
  fold_left (fun acc i => insert_idx row i acc) (seq 0 (List.length row)) [].

(** [str.capitalize] on ASCII letters. *)
Definition upper (c : ascii) : ascii :=
  let n := nat_of_ascii c in
  if (97 <=? n)%nat && (n <=? 122)%nat then ascii_of_nat (n - 32) else c.

Definition lower (c : ascii) : ascii :=
  let n := nat_of_ascii c in
  if (65 <=? n)%nat && (n <=? 90)%nat then ascii_of_nat (n + 32) else c.

Fixpoint lower_all (s : string) : string :=
  match s with
  | EmptyString => EmptyString
  | String c s' => String (lower c) (lower_all s')
  end.

Definition capitalize_ascii (s : string) : string :=
  match s with
  | EmptyString => EmptyString
  | String c s' => String (upper c) (lower_all s')
  end.

(** Two iteration orders of the same set. *)
Definition set_order_fwd (xs : list string) : list string :=
  nodup string_dec xs.

Definition set_order_bwd (xs : list string) : list string :=
  rev (nodup string_dec xs).

(** A toy topic model with two topics: texts about the government load
    on topic 0, all others on topic 1. *)
Definition row_of (text : string) : list Q :=
  if String.prefix "governo" text then [(9 # 10)%Q; (1 # 10)%Q]
  else [(1 # 10)%Q; (9 # 10)%Q].

Definition model (texts : list string) : sklearn_fit :=
  {| feature_names := ["governo"; "legge"; "calcio"; "partita"];
     components_ := [[(5 # 1)%Q; (3 # 1)%Q; (0 # 1)%Q; (1 # 1)%Q];
                     [(0 # 1)%Q; (1 # 1)%Q; (4 # 1)%Q; (2 # 1)%Q]];
     transform := map row_of texts |}.

Definition fit (texts : list string) (n_topics : nat) : option sklearn_fit :=
  Some (model texts).

(** A BERTopic model that found one topic and left the rest as outliers. *)
Definition model_bertopic (texts : list string) : bertopic_fit :=
  {| fit_topics := map (fun t => if String.prefix "governo" t
                                 then 0%Z else (-1)%Z) texts;
     fit_probs := map (fun _ => (1 # 1)%Q) texts;
     topic_info := [((-1)%Z, 1); (0%Z, 2)];
     get_topic := fun k => if Z.eqb k 0
                           then [("governo", (1 # 2)%Q); ("legge", (1 # 4)%Q)]
                           else [("calcio", (1 # 2)%Q)] |}.

Definition bertopic (texts : list string) : option bertopic_fit :=
  Some (model_bertopic texts).

Definition doc (id np text : string) : article :=
  {| article_id := Some id;
     title := Some text;
     newspaper := Some np;
     url := Some ("https://example.org/" ++ id)%string;
     summary := Some "";
     preprocessed_text := Some text;
     dominant_topic := None;
     topic_distribution := None |}.

Definition corpus : list article :=
  [doc "1" "Beta" "governo legge";
   doc "2" "Alpha" "calcio partita";
   doc "3" "Beta" "governo riforme"].

(** The same corpus with an article whose text came out empty. *)
Definition corpus_with_gap : list article :=
  [doc "0" "Alpha" "";
   doc "1" "Beta" "governo legge";
   doc "2" "Alpha" "calcio partita"].

Definition empty_corpus : list article :=
  [doc "1" "Beta" ""; doc "2" "Alpha" ""].

(** Two articles on the government, the first without a [newspaper]
    key, the second from the source with the empty name. *)
Definition corpus_no_key : list article :=
  [{| article_id := Some "1";
      title := Some "governo legge";
      newspaper := None;
      url := None;
      summary := None;
      preprocessed_text := Some "governo legge";
      dominant_topic := None;
      topic_distribution := None |};
   doc "2" "" "governo riforme"].


(** [corpus] with a second article that still carries the dominant
    topic of an earlier run. *)
Definition corpus_stale : list article :=
  [doc "1" "Beta" "governo legge";
   {| article_id := Some "2";
      title := Some "calcio partita";
      newspaper := Some "Alpha";
      url := Some "https://example.org/2";
      summary := Some "";
      preprocessed_text := Some "calcio partita";
      dominant_topic := Some 0%Z;
      topic_distribution := Some [(6 # 10)%Q; (4 # 10)%Q] |};
   doc "3" "Beta" "governo riforme"].

Definition rt (order : list string -> list string) (bert : bool)
    (stored : list article) : runtime :=
  {| SKLEARN_AVAILABLE := true;
     BERTOPIC_AVAILABLE := bert;
     LatentDirichletAllocation := fit;
     NMF := fit;
     BERTopic := bertopic;
     argsort := sort_indices;
     capitalize := capitalize_ascii;
     set_iter := order;
     now := "2025-01-15";
     get_articles_by_date := fun _ => stored;
     preprocess_article := fun a => default "" (title a) |}.

(** The same environment with a BERTopic whose fit raises. *)
Definition rt_bertopic_raises (stored : list article) : runtime :=
  {| SKLEARN_AVAILABLE := true;
     BERTOPIC_AVAILABLE := true;
     LatentDirichletAllocation := fit;
     NMF := fit;
     BERTopic := fun _ => None;
     argsort := sort_indices;
     capitalize := capitalize_ascii;
     set_iter := set_order_fwd;
     now := "2025-01-15";
     get_articles_by_date := fun _ => stored;
     preprocess_article := fun a => default "" (title a) |}.

End Sample.

(** The same environment with another iteration order for sets. *)
Definition with_set_iter (rt : runtime) (order : list string -> list string)
    : runtime :=
  {| SKLEARN_AVAILABLE := SKLEARN_AVAILABLE rt;
     BERTOPIC_AVAILABLE := BERTOPIC_AVAILABLE rt;
     LatentDirichletAllocation := LatentDirichletAllocation rt;
     NMF := NMF rt;
     BERTopic := BERTopic rt;
     argsort := argsort rt;
     capitalize := capitalize rt;
     set_iter := order;
     now := now rt;
     get_articles_by_date := get_articles_by_date rt;
     preprocess_article := preprocess_article rt |}.

(** Two topic dicts that differ at most in the order of the entries of
    their two statistics. *)
Definition same_topic_up_to_source_order (t1 t2 : topic) : Prop :=
  topic_id t1 = topic_id t2 /\ words t1 = words t2 /\ weights t1 = weights t2
  /\ count t1 = count t2 /\ label t1 = label t2 /\ articles t1 = articles t2
  /\ Permutation (newspaper_counts t1) (newspaper_counts t2)
  /\ Permutation (newspaper_weights t1) (newspaper_weights t2).

Definition same_result_up_to_source_order (r1 r2 : result) : Prop :=
  date r1 = date r2 /\ algorithm r1 = algorithm r2
  /\ num_articles r1 = num_articles r2 /\ num_topics r1 = num_topics r2
  /\ Forall2 same_topic_up_to_source_order (topics r1) (topics r2).

Definition same_outcome_up_to_source_order
    (o1 o2 : outcome (option result)) : Prop :=
  match o1, o2 with
  | Raised e1, Raised e2 => e1 = e2
  | Returned None, Returned None => True
  | Returned (Some r1), Returned (Some r2) =>
      same_result_up_to_source_order r1 r2
  | _, _ => False
  end.

(** Lexical order on source names. *)
Definition lex_le (a b : string) : Prop := String.leb a b = true.

(** The positions of the elements that satisfy [p], counted from [i]. *)
Fixpoint indices_where {A : Type} (p : A -> bool) (i : nat) (l : list A)
    : list nat :=
  match l with
  | [] => []
  | x :: l' =>
      if p x then i :: indices_where p (S i) l' else indices_where p (S i) l'
  end.

(** The positions, in the article list, of the articles that the loop of
    lines 215-224 appends to the list of topic [k]. *)
Definition members (arts : list article) (k : Z) : list nat :=
  indices_where (has_dominant k) 0 arts.

Definition refs_at (arts : list article) (positions : list nat)
    : list article_ref :=
  flat_map (fun i => match nth_error arts i with
                     | Some a => [article_ref_of a]
                     | None => []
                     end) positions.

(** The state of an article after the assignment step. *)
Inductive assignment := Unassigned | AssignedTo (k : Z).

Definition assignment_of (ids : list Z) (a : article) : assignment :=
  match dominant_topic a with
  | Some d => if existsb (Z.eqb d) ids then AssignedTo d else Unassigned
  | None => Unassigned
  end.

(** The scikit-learn model behind the selected backend. *)
Definition selected_fit (rt : runtime) (algo : string)
    : list string -> nat -> option sklearn_fit :=
  match select_backend rt algo with
  | BackendNMF => NMF rt
  | _ => LatentDirichletAllocation rt
  end.

(** The failure kinds of the specification. *)
Inductive failure := EmptyCorpus | BackendFailure.

(** The position, among the texts handed to the backend, of the text of
    the article in position [i]: the number of articles before it that
    survive the filter of line 170. *)
Definition text_position (arts : list article) (i : nat) : nat :=
  List.length (preprocessed_texts_of (firstn i arts)).



(** * More environments *)

Module Faults.

(** An installation without scikit-learn. *)
Definition rt_no_sklearn : runtime :=
  {| SKLEARN_AVAILABLE := false;
     BERTOPIC_AVAILABLE := false;
     LatentDirichletAllocation := Sample.fit;
     NMF := Sample.fit;
     BERTopic := Sample.bertopic;
     argsort := Sample.sort_indices;
     capitalize := Sample.capitalize_ascii;
     set_iter := Sample.set_order_fwd;
     now := "2025-01-15";
     get_articles_by_date := fun _ => [];
     preprocess_article := fun a => default "" (title a) |}.

(** A scikit-learn whose vectoriser rejects a corpus of fewer than two
    texts. *)
Definition strict_fit (texts : list string) (n_topics : nat)
    : option sklearn_fit :=
  if (List.length texts <? 2)%nat then None else Sample.fit texts n_topics.

Definition rt_strict (stored : list article) : runtime :=
  {| SKLEARN_AVAILABLE := true;
     BERTOPIC_AVAILABLE := false;
     LatentDirichletAllocation := strict_fit;
     NMF := strict_fit;
     BERTopic := Sample.bertopic;
     argsort := Sample.sort_indices;
     capitalize := Sample.capitalize_ascii;
     set_iter := Sample.set_order_fwd;
     now := "2025-01-15";
     get_articles_by_date := fun _ => stored;
     preprocess_article := fun a => default "" (title a) |}.

Definition single : list article := [Sample.doc "1" "Beta" "governo legge"].

End Faults.

(** * More vocabulary *)

(** Whether the loop of lines 215-224 appends the article to some list. *)
Definition is_assigned (ids : list Z) (a : article) : bool :=
  match dominant_topic a with
  | Some d => existsb (Z.eqb d) ids
  | None => false
  end.

(** A topic dict of the result, cut back to what the backend returned. *)
Definition backend_part (t : topic) : raw_topic :=
  {| raw_topic_id := topic_id t;
     raw_words := words t;
     raw_weights := weights t;
     raw_count := count t |}.

(** * More of the repository *)

(** ** [process_date_range] ([scripts/process_topics.py]) *)

(** The name [save_topic_results] gives to its file. *)
Definition topics_filename (date_str algo : string) : string :=
  ("data/topics/topics_" ++ date_str ++ "_" ++ algo ++ ".json")%string.

Fixpoint no_underscore (s : string) : bool :=
  match s with
  | EmptyString => true
  | String c s' => negb (Ascii.eqb c "_") && no_underscore s'
  end.

(** A [datetime] is a number of microseconds; [timedelta(days=1)]. *)
Definition one_day : Z := 86400000000.

(** The [while] loop of lines 57-73.  [env k] is the environment in which
    the [k]-th day is processed (the clock moves on between two days),
    [strftime] formats a [datetime] as ['%Y-%m-%d'], and [results] is
    the insertion-ordered dict of line 55.  An exception of
    [process_single_day] ends the loop; [None] is a loop cut short by
    [fuel]. *)
Fixpoint date_loop (fuel : nat) (env : nat -> runtime) (strftime : Z -> string)
    (k : nat) (current_date end_date : Z) (algo : string) (n_topics : nat)
    (results : list (string * result)) (files : gmap string result)
    : option (outcome (list (string * result)) * gmap string result) :=
  match fuel with
  | 0 => None
  | S fuel' =>
      if (current_date <=? end_date)%Z then
        let date_str := strftime current_date in
        match process_single_day (env k) date_str algo n_topics files with
        | (Raised e, files') => Some (Raised e, files')
        | (Returned topic_results, files') =>
            date_loop fuel' env strftime (S k) (current_date + one_day)
              end_date algo n_topics
              match topic_results with
              | Some r => dict_set results date_str r
              | None => results
              end
              files'
        end
      else Some (Returned results, files)
  end.

(** One test of the loop condition more than there are days. *)
Definition days_in_range (start_date end_date : Z) : nat :=
  Z.to_nat ((end_date - start_date) / one_day + 1).

Definition process_date_range (env : nat -> runtime) (strftime : Z -> string)
    (start_date end_date : Z) (algo : string) (n_topics : nat)
    (files : gmap string result)
    : option (outcome (list (string * result)) * gmap string result) :=
  date_loop (S (days_in_range start_date end_date)) env strftime 0
    start_date end_date algo n_topics [] files.

Module Range.

(** Two days of articles and a calendar for them. *)
Definition strftime (t : Z) : string :=
  if (t <? one_day)%Z then "2025-01-14" else "2025-01-15".

Definition stored (date_str : string) : list article :=
  if String.eqb date_str "2025-01-14" then Sample.corpus
  else Sample.corpus_with_gap.

Definition rt : runtime :=
  {| SKLEARN_AVAILABLE := true;
     BERTOPIC_AVAILABLE := false;
     LatentDirichletAllocation := Sample.fit;
     NMF := Sample.fit;
     BERTopic := Sample.bertopic;
     argsort := Sample.sort_indices;
     capitalize := Sample.capitalize_ascii;
     set_iter := Sample.set_order_fwd;
     now := "2025-01-16";
     get_articles_by_date := stored;
     preprocess_article := fun a => default "" (title a) |}.

End Range.

(** ** [extract_full_content] ([src/data/collect.py]) *)

(** An article dict as [collect_rss_feeds] builds it; [content] and
    [kicker] are absent until the page has been read. *)
Record feed_article := FeedArticle {
  fa_article_id : string;
  fa_newspaper : string;
  fa_title : string;
  fa_summary : string;
  fa_url : string;
  fa_published_date : string;
  fa_collection_date : string;
  fa_language : string;
  fa_authors : list string;
  fa_categories : list string;
  fa_content : option string;
  fa_kicker : option string
}.

(** What a downloaded and parsed page gives: [text], the ['description']
    of [meta_data] if any, [authors], and [publish_date.isoformat()] if
    there is a date. *)
Record page := Page {
  page_text : string;
  page_description : option string;
  page_authors : list string;
  page_publish_date : option string
}.

(** The [try] block of lines 77-99 for one article; [download] is
    [None] when the download or the parser raises, which happens before
    the first assignment. *)
Definition read_page (download : string -> option page) (a : feed_article)
    : feed_article :=
  match download (fa_url a) with
  | None => a
  | Some p =>
      {| fa_article_id := fa_article_id a;
         fa_newspaper := fa_newspaper a;
         fa_title := fa_title a;
         fa_summary := fa_summary a;
         fa_url := fa_url a;
         fa_published_date := match page_publish_date p with
                              | Some d => d
                              | None => fa_published_date a
                              end;
         fa_collection_date := fa_collection_date a;
         fa_language := fa_language a;
         fa_authors := match page_authors p with
                       | [] => fa_authors a
                       | _ :: _ => page_authors p
                       end;
         fa_categories := fa_categories a;
         fa_content := Some (page_text p);
         fa_kicker := Some (default "" (page_description p)) |}
  end.

(** Lines 70-74: how many articles of the list are read. *)
Definition articles_to_process (articles_data : list feed_article)
    (max_articles : option nat) : nat :=
  match max_articles with
  | Some m =>
      if negb (m =? 0)%nat && (m <? List.length articles_data)%nat then m
      else List.length articles_data
  | None => List.length articles_data
  end.

(** The dicts of the slice are those of the list: the function returns
    the whole list, its first articles updated in place. *)
Definition extract_full_content (download : string -> option page)
    (articles_data : list feed_article) (max_articles : option nat)
    : list feed_article :=
  let limit := articles_to_process articles_data max_articles in
  map (read_page download) (firstn limit articles_data)
  ++ skipn limit articles_data.

(** The keys [extract_full_content] never assigns. *)
Definition same_feed_fields (a a' : feed_article) : Prop :=
  fa_article_id a' = fa_article_id a /\ fa_newspaper a' = fa_newspaper a
  /\ fa_title a' = fa_title a /\ fa_summary a' = fa_summary a
  /\ fa_url a' = fa_url a /\ fa_collection_date a' = fa_collection_date a
  /\ fa_language a' = fa_language a /\ fa_categories a' = fa_categories a.

(** ** [create_topic_heatmap] ([src/visualization/plots.py]) *)

(** What the function hands to [go.Figure] and [update_layout]. *)
Record heatmap := Heatmap {
  hm_z : list (list Q);
  hm_x : list string;
  hm_y : list string;
  hm_title : string
}.

(** [str] of an [int]. *)
Definition string_of_Z (z : Z) : string := NilZero.string_of_int (Z.to_int z).

(** [f"Topic {t['topic_id']}: {', '.join(t['words'][:3])}"] *)
Definition topic_axis_label (t : topic) : string :=
  ("Topic " ++ string_of_Z (topic_id t) ++ ": "
     ++ String.concat ", " (firstn 3 (words t)))%string.

(** The first element of every row and the remaining rows, or [None]
    when a row is exhausted. *)
Fixpoint heads {A : Type} (rows : list (list A))
    : option (list A * list (list A)) :=
  match rows with
  | [] => Some ([], [])
  | [] :: _ => None
  | (x :: r) :: rows' =>
      match heads rows' with
      | Some (hs, ts) => Some (x :: hs, r :: ts)
      | None => None
      end
  end.

Fixpoint zip_rows {A : Type} (fuel : nat) (rows : list (list A))
    : list (list A) :=
  match fuel with
  | 0 => []
  | S fuel' =>
      match rows with
      | [] => []
      | _ :: _ =>
          match heads rows with
          | Some (hs, ts) => hs :: zip_rows fuel' ts
          | None => []
          end
      end
  end.

(** [list(map(list, zip( *rows )))]: the columns of [rows], as many as
    the shortest row has elements, and none for no row; the length of
    the first row bounds the number of columns. *)
Definition zip_star {A : Type} (rows : list (list A)) : list (list A) :=
  zip_rows (List.length (hd [] rows)) rows.

(** Lines 44-89, for a result as [save_topic_results] wrote it. *)
Definition create_topic_heatmap (rt : runtime) (PLOTLY_AVAILABLE : bool)
    (topics_data : result) : option heatmap :=
  if negb PLOTLY_AVAILABLE then None
  else
    match topics topics_data with
    | [] => None
    | ts =>
        let newspapers :=
          set_iter rt (flat_map (fun t => map fst (newspaper_weights t)) ts) in
        let heatmap_data :=
          map (fun np =>
                 map (fun t => default 0%Q (dict_get (newspaper_weights t) np))
                     ts) newspapers in
        Some {| hm_z := zip_star heatmap_data;
                hm_x := newspapers;
                hm_y := map topic_axis_label ts;
                hm_title := ("Topic Distribution Across Italian Newspapers ("
                               ++ date topics_data ++ ")")%string |}
    end.

Module Feed.

Definition entry (id np url : string) : feed_article :=
  {| fa_article_id := id;
     fa_newspaper := np;
     fa_title := "titolo";
     fa_summary := "";
     fa_url := url;
     fa_published_date := "2025-01-15T08:00:00";
     fa_collection_date := "2025-01-15T09:00:00";
     fa_language := "it";
     fa_authors := [];
     fa_categories := [];
     fa_content := None;
     fa_kicker := None |}.

Definition feed : list feed_article :=
  [entry "1" "Il Post" "https://a"; entry "2" "Il Post" "https://b";
   entry "3" "Libero" "https://c"].

(** A site on which the second page cannot be read. *)
Definition download (url : string) : option page :=
  if String.eqb url "https://b" then None
  else Some {| page_text := "testo";
               page_description := None;
               page_authors := ["Rossi"];
               page_publish_date := None |}.

End Feed.

(** ** The contract of numpy's [argsort] *)

(** [argsort] returns the positions of the row, each once, ordered by
    ascending value. *)
Definition argsort_ascending (rt : runtime) (row : list Q) : Prop :=
  StronglySorted (fun i j => (nth i row 0 <= nth j row 0)%Q) (argsort rt row)
  /\ Permutation (argsort rt row) (seq 0 (List.length row)).

(** * Properties *)

Lemma set_order_fwd_ok order bert stored :
  order = Sample.set_order_fwd -> set_iter_ok (Sample.rt order bert stored).
Proof.
  intros ->. intros xs. simpl. unfold Sample.set_order_fwd. split.
  - apply NoDup_nodup.
  - intros x. apply nodup_In.
Qed.

Lemma set_order_bwd_ok order bert stored :
  order = Sample.set_order_bwd -> set_iter_ok (Sample.rt order bert stored).
Proof.
  intros ->. intros xs. simpl. unfold Sample.set_order_bwd. split.
  - apply NoDup_rev, NoDup_nodup.
  - intros x. rewrite <- in_rev. apply nodup_In.
Qed.

(** ** The assignment loop *)

Lemma same_input_fields_refl a : same_input_fields a a.
Proof. repeat split. Qed.

Lemma same_input_fields_set a d dist :
  same_input_fields a (set_assignment a d dist).
Proof. repeat split. Qed.

Lemma assign_topics_length i arts dists :
  List.length (fst (assign_topics i arts dists)) = List.length arts.
Proof.
  revert i. induction arts as [|a rest IH]; intros i; simpl; [reflexivity|].
  destruct (i <? List.length dists)%nat.
  - destruct (argmax (nth i dists [])); simpl; [|reflexivity].
    specialize (IH (S i)).
    destruct (assign_topics (S i) rest dists); simpl in *. now rewrite IH.
  - specialize (IH (S i)).
    destruct (assign_topics (S i) rest dists); simpl in *. now rewrite IH.
Qed.

Lemma assign_topics_frame i arts dists :
  Forall2 same_input_fields arts (fst (assign_topics i arts dists)).
Proof.
  revert i. induction arts as [|a rest IH]; intros i; simpl; [constructor|].
  destruct (i <? List.length dists)%nat.
  - destruct (argmax (nth i dists [])); simpl.
    + specialize (IH (S i)).
      destruct (assign_topics (S i) rest dists); simpl in *.
      constructor; [apply same_input_fields_set | exact IH].
    + constructor; [apply same_input_fields_refl|].
      clear. induction rest; constructor; auto using same_input_fields_refl.
  - specialize (IH (S i)).
    destruct (assign_topics (S i) rest dists); simpl in *.
    constructor; [apply same_input_fields_set | exact IH].
Qed.

(** With no empty row in the array the loop visits every article and
    does not raise. *)
Lemma assign_topics_total i arts dists :
  Forall (fun row => row <> []) dists ->
  snd (assign_topics i arts dists) = Returned tt
  /\ forall j, nth_error (fst (assign_topics i arts dists)) j
               = option_map (assigned_article dists (i + j)) (nth_error arts j).
Proof.
  intros Hrows. revert i.
  induction arts as [|a rest IH]; intros i; simpl.
  - split; [reflexivity|]. intros [|j]; reflexivity.
  - specialize (IH (S i)). destruct IH as [IHo IHn].
    destruct (i <? List.length dists)%nat eqn:Hi.
    + assert (Hne : nth i dists [] <> []).
      { apply Nat.ltb_lt in Hi.
        rewrite List.Forall_forall in Hrows. apply Hrows. now apply nth_In. }
      destruct (argmax (nth i dists [])) as [k|] eqn:Hk.
      2:{ destruct (nth i dists []); [congruence | discriminate]. }
      destruct (assign_topics (S i) rest dists) as [rest' o]; simpl in *.
      split; [exact IHo|]. intros [|j]; simpl.
      * unfold assigned_article. rewrite Nat.add_0_r, Hi, Hk. reflexivity.
      * rewrite IHn. do 2 f_equal. lia.
    + destruct (assign_topics (S i) rest dists) as [rest' o]; simpl in *.
      split; [exact IHo|]. intros [|j]; simpl.
      * unfold assigned_article. rewrite Nat.add_0_r, Hi. reflexivity.
      * rewrite IHn. do 2 f_equal. lia.
Qed.

(** Every article the loop has visited carries a dominant topic. *)
Lemma assign_topics_dominant i arts dists arts' :
  assign_topics i arts dists = (arts', Returned tt) ->
  Forall (fun a => dominant_topic a <> None /\ topic_distribution a <> None)
         arts'.
Proof.
  revert i arts'. induction arts as [|a rest IH]; intros i arts'; simpl.
  - intros [= <-]. constructor.
  - destruct (i <? List.length dists)%nat.
    + destruct (argmax (nth i dists [])); [|discriminate].
      destruct (assign_topics (S i) rest dists) as [rest' o] eqn:E.
      intros [= <- ->]. constructor; [split; discriminate|]. eapply IH; eauto.
    + destruct (assign_topics (S i) rest dists) as [rest' o] eqn:E.
      intros [= <- ->]. constructor; [split; discriminate|]. eapply IH; eauto.
Qed.

(** ** Grouping the articles by topic *)

Lemma init_groups_lookup_from (ts : list raw_topic)
    (m : gmap Z (list article_ref)) (k : Z) :
  fold_left (fun m t => <[raw_topic_id t := []]> m) ts m !! k
  = if existsb (fun t => Z.eqb (raw_topic_id t) k) ts then Some [] else m !! k.
Proof.
  revert m. induction ts as [|t ts IH]; intros m; simpl; [reflexivity|].
  rewrite IH. destruct (existsb _ ts); [now rewrite orb_true_r|].
  rewrite orb_false_r. destruct (Z.eqb_spec (raw_topic_id t) k) as [->|Hne].
  - apply lookup_insert_eq.
  - now apply lookup_insert_ne.
Qed.

Lemma init_groups_lookup (ts : list raw_topic) (k : Z) :
  init_groups ts !! k
  = if existsb (fun t => Z.eqb (raw_topic_id t) k) ts then Some [] else None.
Proof. unfold init_groups. now rewrite init_groups_lookup_from, lookup_empty. Qed.

Lemma group_step_lookup (m : gmap Z (list article_ref)) (a : article) (k : Z) :
  group_step m a !! k
  = (fun l => if has_dominant k a then l ++ [article_ref_of a] else l)
      <$> (m !! k).
Proof.
  unfold group_step, has_dominant.
  destruct (dominant_topic a) as [d|].
  2:{ now destruct (m !! k). }
  destruct (Z.eqb_spec d k) as [->|Hne].
  - destruct (m !! k) as [l|] eqn:Hk; simpl.
    + now rewrite lookup_insert_eq.
    + now rewrite Hk.
  - destruct (m !! d) as [l|].
    + rewrite lookup_insert_ne by exact Hne. now destruct (m !! k).
    + now destruct (m !! k).
Qed.

Lemma group_fold_lookup (arts : list article)
    (m : gmap Z (list article_ref)) (k : Z) :
  fold_left group_step arts m !! k
  = (fun l => l ++ map article_ref_of (List.filter (has_dominant k) arts))
      <$> (m !! k).
Proof.
  revert m. induction arts as [|a rest IH]; intros m; simpl.
  - destruct (m !! k); simpl; [now rewrite app_nil_r | reflexivity].
  - rewrite IH, group_step_lookup.
    destruct (m !! k) as [l|]; simpl; [|reflexivity].
    destruct (has_dominant k a); simpl; [|reflexivity].
    now rewrite <- app_assoc.
Qed.

(** The list attached to a topic: the articles whose dominant topic is
    the topic's id, in input order. *)
Lemma topic_articles_spec (ts : list raw_topic) (arts : list article)
    (t : raw_topic) :
  In t ts ->
  topic_articles (group_articles ts arts) t
  = map article_ref_of (List.filter (has_dominant (raw_topic_id t)) arts).
Proof.
  intros Hin. unfold topic_articles, group_articles.
  rewrite group_fold_lookup, init_groups_lookup.
  replace (existsb _ ts) with true; [reflexivity|].
  symmetry. apply existsb_exists. exists t. split; [exact Hin|].
  apply Z.eqb_refl.
Qed.

(** ** The per-topic statistics *)

Lemma dict_set_fresh {V : Type} (d : list (string * V)) (k : string) (v : V) :
  ~ In k (map fst d) -> dict_set d k v = d ++ [(k, v)].
Proof.
  induction d as [|[k' v'] d IH]; simpl; intros Hk; [reflexivity|].
  destruct (String.eqb_spec k' k) as [->|Hne]; [tauto|].
  rewrite IH; [reflexivity | tauto].
Qed.

Lemma dict_get_map {V : Type} (f : string -> V) (ks : list string) (k : string) :
  dict_get (map (fun x => (x, f x)) ks) k
  = if existsb (String.eqb k) ks then Some (f k) else None.
Proof.
  induction ks as [|x ks IH]; simpl; [reflexivity|].
  rewrite (String.eqb_sym k x).
  destruct (String.eqb_spec x k) as [->|Hne]; [reflexivity | exact IH].
Qed.

Lemma existsb_eqb_In (k : string) (ks : list string) :
  existsb (String.eqb k) ks = true <-> In k ks.
Proof.
  rewrite existsb_exists. split.
  - intros (x & Hx & He). apply String.eqb_eq in He. now subst.
  - intros H. exists k. split; [exact H | apply String.eqb_refl].
Qed.

Lemma topic_stats_from arts refs (nps : list string)
    (c : list (string * nat)) (w : list (string * Q)) :
  List.NoDup nps ->
  (forall x, In x nps -> ~ In x (map fst c)) ->
  (forall x, In x nps -> ~ In x (map fst w)) ->
  fold_left
    (fun (acc : list (string * nat) * list (string * Q)) np =>
       let cnt := count_in_topic refs np in
       (dict_set (fst acc) np cnt,
        dict_set (snd acc) np
          (weight_of cnt (total_articles_from_newspaper arts np))))
    nps (c, w)
  = (c ++ counts_of refs nps, w ++ weights_of arts refs nps).
Proof.
  intros Hnd. revert c w.
  induction Hnd as [|x nps Hx Hnd IH]; intros c w Hc Hw; simpl.
  - now rewrite !app_nil_r.
  - rewrite !dict_set_fresh by (first [apply Hc | apply Hw]; now left).
    rewrite IH.
    + now rewrite <- !app_assoc.
    + intros y Hy. rewrite map_app, in_app_iff. simpl.
      intros [H|[H|[]]]; [apply (Hc y); [now right | exact H]|].
      subst. contradiction.
    + intros y Hy. rewrite map_app, in_app_iff. simpl.
      intros [H|[H|[]]]; [apply (Hw y); [now right | exact H]|].
      subst. contradiction.
Qed.

Lemma topic_stats_spec arts refs (nps : list string) :
  List.NoDup nps ->
  topic_stats arts refs nps = (counts_of refs nps, weights_of arts refs nps).
Proof.
  intros Hnd. unfold topic_stats.
  exact (topic_stats_from arts refs nps [] [] Hnd
           (fun _ _ H => H) (fun _ _ H => H)).
Qed.

Lemma list_sum_indicator (x : string) (nps : list string) :
  List.NoDup nps -> In x nps ->
  list_sum (map (fun np => if String.eqb x np then 1 else 0) nps) = 1.
Proof.
  induction 1 as [|y nps Hy Hnd IH]; simpl; [tauto|].
  intros [->|Hin].
  - rewrite String.eqb_refl. f_equal.
    clear IH Hnd. induction nps as [|z nps IH]; simpl; [reflexivity|].
    destruct (String.eqb_spec x z) as [->|_]; [exfalso; apply Hy; now left|].
    apply IH. intros H. apply Hy. now right.
  - destruct (String.eqb_spec x y) as [->|_]; [contradiction|]. now apply IH.
Qed.

Lemma count_in_topic_cons (r : article_ref) (refs : list article_ref)
    (nps : list string) :
  list_sum (map (count_in_topic (r :: refs)) nps)
  = list_sum (map (fun np => if String.eqb (ref_newspaper r) np then 1 else 0) nps)
    + list_sum (map (count_in_topic refs) nps).
Proof.
  induction nps as [|np nps IH]; simpl; [reflexivity|].
  rewrite IH. unfold count_in_topic at 1. simpl.
  destruct (String.eqb (ref_newspaper r) np); simpl;
    fold (count_in_topic refs np); lia.
Qed.

(** Each article of a topic is counted under exactly one source. *)
Lemma count_in_topic_sum (refs : list article_ref) (nps : list string) :
  List.NoDup nps ->
  (forall r, In r refs -> In (ref_newspaper r) nps) ->
  list_sum (map (count_in_topic refs) nps) = List.length refs.
Proof.
  intros Hnd. induction refs as [|r refs IH]; intros Hall.
  - simpl. clear. induction nps; simpl; auto.
  - rewrite count_in_topic_cons, IH by (intros; apply Hall; now right).
    rewrite (list_sum_indicator (ref_newspaper r) nps Hnd)
      by (apply Hall; now left).
    reflexivity.
Qed.

(** ** The shape of a run *)

(** A run that returns a result went through one of the two paths: the
    BERTopic path, which leaves the articles alone, or a scikit-learn path
    followed by the assignment loop. *)
Lemma process_returned rt arts algo n arts' r :
  process_articles_for_topics rt arts algo n = (arts', Returned (Some r)) ->
  exists ts,
    ts <> [] /\ r = compose rt algo ts arts'
    /\ ((run_backend rt algo (preprocessed_texts_of arts) n
           = Returned (Some ts, None) /\ arts' = arts)
        \/ (exists dists,
              run_backend rt algo (preprocessed_texts_of arts) n
                = Returned (Some ts, Some dists)
              /\ assign_topics 0 arts dists = (arts', Returned tt))).
Proof.
  unfold process_articles_for_topics.
  destruct (preprocessed_texts_of arts) as [|x xs] eqn:Htexts; [discriminate|].
  destruct (run_backend rt algo (x :: xs) n) as [e|[[ts|] ds]]; try discriminate.
  destruct ts as [|t ts]; [discriminate|].
  destruct ds as [dists|].
  - destruct (assign_topics 0 arts dists) as [arts1 [e|[]]] eqn:Ha;
      [discriminate|].
    intros [= <- <-]. exists (t :: ts). split; [discriminate|].
    split; [reflexivity|]. right. exists dists. auto.
  - intros [= <- <-]. exists (t :: ts). split; [discriminate|].
    split; [reflexivity|]. left. auto.
Qed.

(** The call never touches a key it only reads, whatever its outcome. *)
Lemma process_frame rt arts algo n :
  Forall2 same_input_fields arts
    (fst (process_articles_for_topics rt arts algo n)).
Proof.
  assert (Hrefl : Forall2 same_input_fields arts arts).
  { induction arts; constructor; auto using same_input_fields_refl. }
  unfold process_articles_for_topics.
  destruct (preprocessed_texts_of arts) as [|x xs]; [exact Hrefl|].
  destruct (run_backend rt algo (x :: xs) n) as [e|[[ts|] ds]];
    try exact Hrefl.
  destruct ts as [|t ts]; [exact Hrefl|].
  destruct ds as [dists|]; [|exact Hrefl].
  pose proof (assign_topics_frame 0 arts dists) as H.
  destruct (assign_topics 0 arts dists) as [arts1 [e|[]]]; exact H.
Qed.

Lemma same_newspapers arts arts' :
  Forall2 same_input_fields arts arts' ->
  map (fun a => default "" (newspaper a)) arts'
  = map (fun a => default "" (newspaper a)) arts.
Proof.
  induction 1 as [|a a' l l' Ha _ IH]; simpl; [reflexivity|].
  destruct Ha as (_ & _ & -> & _). now rewrite IH.
Qed.

Lemma same_totals arts arts' np :
  Forall2 same_input_fields arts arts' ->
  total_articles_from_newspaper arts' np = total_articles_from_newspaper arts np.
Proof.
  unfold total_articles_from_newspaper.
  induction 1 as [|a a' l l' Ha _ IH]; simpl; [reflexivity|].
  destruct Ha as (_ & _ & -> & _).
  destruct (newspaper a) as [s|]; [|exact IH].
  destruct (String.eqb s np); simpl; now rewrite IH.
Qed.

(** The topics of a composed result, one by one. *)
Lemma compose_topic rt algo ts arts t :
  set_iter_ok rt ->
  In t (topics (compose rt algo ts arts)) ->
  exists raw,
    In raw ts /\ topic_id t = raw_topic_id raw
    /\ articles t
       = map article_ref_of (List.filter (has_dominant (topic_id t)) arts)
    /\ newspaper_counts t = counts_of (articles t) (newspapers_of rt arts)
    /\ newspaper_weights t
       = weights_of arts (articles t) (newspapers_of rt arts).
Proof.
  intros Hset Hin. unfold compose in Hin. simpl in Hin.
  apply in_map_iff in Hin. destruct Hin as (raw & <- & Hraw).
  exists raw. split; [exact Hraw|]. split; [reflexivity|].
  unfold finish_topic. simpl.
  rewrite topic_stats_spec by apply Hset.
  rewrite topic_articles_spec by exact Hraw. auto.
Qed.

(** ** Reproducibility and the order of the sources *)

Lemma extract_topics_set_iter rt order names i rows :
  extract_topics (with_set_iter rt order) names i rows
  = extract_topics rt names i rows.
Proof.
  revert i. induction rows as [|row rows IH]; intros i; simpl;
    [reflexivity | now rewrite IH].
Qed.

Lemma run_backend_set_iter rt order algo texts n :
  run_backend (with_set_iter rt order) algo texts n
  = run_backend rt algo texts n.
Proof.
  unfold run_backend, select_backend, perform_nmf, perform_lda_sklearn,
    perform_sklearn, try_bertopic. simpl.
  destruct (String.eqb algo "nmf").
  - destruct (SKLEARN_AVAILABLE rt); simpl; [|reflexivity].
    destruct (NMF rt texts n); [|reflexivity].
    now rewrite extract_topics_set_iter.
  - destruct (String.eqb algo "bertopic" && BERTOPIC_AVAILABLE rt);
      [reflexivity|].
    destruct (SKLEARN_AVAILABLE rt); simpl; [|reflexivity].
    destruct (LatentDirichletAllocation rt texts n); [|reflexivity].
    now rewrite extract_topics_set_iter.
Qed.

Lemma newspapers_permutation rt order arts :
  set_iter_ok rt -> set_iter_ok (with_set_iter rt order) ->
  Permutation (newspapers_of (with_set_iter rt order) arts)
              (newspapers_of rt arts).
Proof.
  intros H1 H2. unfold newspapers_of.
  set (xs := map (fun a => default "" (newspaper a)) arts).
  destruct (H1 xs) as [Hnd1 Hin1]. destruct (H2 xs) as [Hnd2 Hin2].
  apply Permutation.NoDup_Permutation; [exact Hnd2 | exact Hnd1|].
  intros x. rewrite Hin2, Hin1. reflexivity.
Qed.

Lemma compose_set_iter rt order algo ts arts :
  set_iter_ok rt -> set_iter_ok (with_set_iter rt order) ->
  same_result_up_to_source_order
    (compose (with_set_iter rt order) algo ts arts) (compose rt algo ts arts).
Proof.
  intros H1 H2. unfold same_result_up_to_source_order, compose. simpl.
  repeat (split; [reflexivity|]).
  pose proof (newspapers_permutation rt order arts H1 H2) as Hperm.
  generalize (group_articles ts arts). intros by_topic.
  induction ts as [|t ts IH]; simpl; constructor; [|exact IH].
  unfold same_topic_up_to_source_order, finish_topic. simpl.
  repeat (split; [reflexivity|]).
  rewrite !topic_stats_spec by (first [apply H1 | apply H2]). simpl.
  split; apply Permutation_map; exact Hperm.
Qed.

(** The sources of a statistic are listed in the iteration order of the
    set of line 235. *)
Lemma compose_source_order rt algo ts arts t :
  set_iter_ok rt ->
  In t (topics (compose rt algo ts arts)) ->
  map fst (newspaper_counts t) = newspapers_of rt arts
  /\ map fst (newspaper_weights t) = newspapers_of rt arts.
Proof.
  intros Hset Hin.
  destruct (compose_topic rt algo ts arts t Hset Hin)
    as (raw & _ & _ & _ & -> & ->).
  unfold counts_of, weights_of. rewrite !map_map. simpl.
  now rewrite !map_id.
Qed.

Lemma process_set_iter rt order arts algo n :
  set_iter_ok rt -> set_iter_ok (with_set_iter rt order) ->
  fst (process_articles_for_topics (with_set_iter rt order) arts algo n)
  = fst (process_articles_for_topics rt arts algo n)
  /\ same_outcome_up_to_source_order
       (snd (process_articles_for_topics (with_set_iter rt order) arts algo n))
       (snd (process_articles_for_topics rt arts algo n)).
Proof.
  intros H1 H2. unfold process_articles_for_topics.
  destruct (preprocessed_texts_of arts) as [|x xs]; [now split|].
  rewrite run_backend_set_iter.
  destruct (run_backend rt algo (x :: xs) n) as [e|[[ts|] ds]];
    [now split | | now split].
  destruct ts as [|t ts]; [now split|].
  destruct ds as [dists|].
  - destruct (assign_topics 0 arts dists) as [arts1 [e|[]]]; [now split|].
    split; [reflexivity|]. simpl. now apply compose_set_iter.
  - split; [reflexivity|]. simpl. now apply compose_set_iter.
Qed.

Lemma same_texts arts arts' :
  Forall2 same_input_fields arts arts' ->
  preprocessed_texts_of arts' = preprocessed_texts_of arts.
Proof.
  unfold preprocessed_texts_of.
  induction 1 as [|a a' l l' Ha _ IH]; simpl; [reflexivity|].
  destruct Ha as (_ & _ & _ & _ & _ & Hp). rewrite Hp.
  destruct (truthy (preprocessed_text a)); simpl; now rewrite ?Hp, IH.
Qed.

(** The loop overwrites the two keys it sets, so running it on its own
    output changes nothing. *)
Lemma assign_topics_idempotent i arts dists :
  assign_topics i (fst (assign_topics i arts dists)) dists
  = assign_topics i arts dists.
Proof.
  revert i. induction arts as [|a rest IH]; intros i; simpl; [reflexivity|].
  destruct (i <? List.length dists)%nat eqn:Hi.
  - destruct (argmax (nth i dists [])) as [k|] eqn:Hk; simpl.
    + specialize (IH (S i)).
      destruct (assign_topics (S i) rest dists) as [rest' o]; simpl in *.
      now rewrite Hi, Hk, IH.
    + now rewrite Hi, Hk.
  - specialize (IH (S i)).
    destruct (assign_topics (S i) rest dists) as [rest' o]; simpl in *.
    now rewrite Hi, IH.
Qed.

Lemma process_rerun rt arts algo n :
  process_articles_for_topics rt
    (fst (process_articles_for_topics rt arts algo n)) algo n
  = process_articles_for_topics rt arts algo n.
Proof.
  destruct (process_articles_for_topics rt arts algo n) as [arts' o] eqn:Hrun.
  pose proof (process_frame rt arts algo n) as Hframe.
  rewrite Hrun in Hframe. simpl in *.
  pose proof (same_texts _ _ Hframe) as Htexts.
  unfold process_articles_for_topics in *. rewrite Htexts.
  destruct (preprocessed_texts_of arts) as [|x xs].
  { now inversion Hrun. }
  destruct (run_backend rt algo (x :: xs) n) as [e|[[ts|] ds]];
    try (now inversion Hrun).
  destruct ts as [|t ts]; [now inversion Hrun|].
  destruct ds as [dists|]; [|now inversion Hrun].
  pose proof (assign_topics_idempotent 0 arts dists) as Hidem.
  destruct (assign_topics 0 arts dists) as [arts1 [e|[]]] eqn:Ha;
    simpl in Hidem; inversion Hrun; subst; now rewrite Hidem.
Qed.

(** C1 (amended).  For a fixed article list, algorithm, topic number,
    backend and clock, two runs whose set iteration orders differ leave
    the articles in the same state and return the same outcome up to the
    order of the entries of [newspaper_counts] and [newspaper_weights]:
    these are permutations of one another, so the mappings from source to
    count and to weight do not depend on the iteration order.  The order
    in which the sources are emitted is the iteration order of the set
    of sources; it is not sorted.  A second run on the list as the first
    run left it returns the same outcome and leaves the list as it is. *)
Theorem C1_reproducible_up_to_source_order rt order arts algo n :
  set_iter_ok rt -> set_iter_ok (with_set_iter rt order) ->
  fst (process_articles_for_topics (with_set_iter rt order) arts algo n)
  = fst (process_articles_for_topics rt arts algo n)
  /\ same_outcome_up_to_source_order
       (snd (process_articles_for_topics (with_set_iter rt order) arts algo n))
       (snd (process_articles_for_topics rt arts algo n))
  /\ process_articles_for_topics rt
       (fst (process_articles_for_topics rt arts algo n)) algo n
     = process_articles_for_topics rt arts algo n
  /\ forall r t,
       snd (process_articles_for_topics rt arts algo n) = Returned (Some r) ->
       In t (topics r) ->
       map fst (newspaper_counts t) = newspapers_of rt arts
       /\ map fst (newspaper_weights t) = newspapers_of rt arts.
Proof.
  intros H1 H2.
  destruct (process_set_iter rt order arts algo n H1 H2) as [Hfst Hsnd].
  split; [exact Hfst|]. split; [exact Hsnd|].
  split; [apply process_rerun|].
  intros r t Hr Ht.
  destruct (process_articles_for_topics rt arts algo n) as [arts' o] eqn:Hrun.
  simpl in Hr. subst o.
  pose proof (process_frame rt arts algo n) as Hframe.
  rewrite Hrun in Hframe. simpl in Hframe.
  destruct (process_returned _ _ _ _ _ _ Hrun) as (ts & _ & -> & _).
  destruct (compose_source_order rt algo ts arts' t H1 Ht) as [Hc Hw].
  unfold newspapers_of in *. rewrite (same_newspapers _ _ Hframe) in Hc, Hw.
  now split.
Qed.

Lemma C1_reproducible_up_to_source_order_witness :
  let rt := Sample.rt Sample.set_order_fwd false [] in
  fst (process_articles_for_topics
         (with_set_iter rt Sample.set_order_bwd) Sample.corpus "lda" 2)
  = fst (process_articles_for_topics rt Sample.corpus "lda" 2)
  /\ same_outcome_up_to_source_order
       (snd (process_articles_for_topics
               (with_set_iter rt Sample.set_order_bwd) Sample.corpus "lda" 2))
       (snd (process_articles_for_topics rt Sample.corpus "lda" 2))
  /\ process_articles_for_topics rt
       (fst (process_articles_for_topics rt Sample.corpus "lda" 2)) "lda" 2
     = process_articles_for_topics rt Sample.corpus "lda" 2
  /\ forall r t,
       snd (process_articles_for_topics rt Sample.corpus "lda" 2)
       = Returned (Some r) ->
       In t (topics r) ->
       map fst (newspaper_counts t) = newspapers_of rt Sample.corpus
       /\ map fst (newspaper_weights t) = newspapers_of rt Sample.corpus.
Proof.
  intros rt.
  apply (C1_reproducible_up_to_source_order rt Sample.set_order_bwd
           Sample.corpus "lda" 2).
  - apply set_order_fwd_ok. reflexivity.
  - apply (set_order_bwd_ok Sample.set_order_bwd false []). reflexivity.
Defined.

(** C1 as stated fails: with the iteration order [set_order_bwd] the
    sources of a topic come out as Beta, Alpha, which is not in ascending
    lexical order, and the result differs from the one obtained with the
    iteration order [set_order_fwd] on the same input. *)
Lemma C1_sources_not_sorted :
  set_iter_ok (Sample.rt Sample.set_order_bwd false [])
  /\ set_iter_ok (Sample.rt Sample.set_order_fwd false [])
  /\ (exists r t,
        snd (process_articles_for_topics
               (Sample.rt Sample.set_order_bwd false []) Sample.corpus "lda" 2)
        = Returned (Some r)
        /\ In t (topics r)
        /\ map fst (newspaper_counts t) = ["Beta"; "Alpha"]
        /\ ~ Sorted lex_le (map fst (newspaper_counts t)))
  /\ snd (process_articles_for_topics
            (Sample.rt Sample.set_order_bwd false []) Sample.corpus "lda" 2)
     <> snd (process_articles_for_topics
               (Sample.rt Sample.set_order_fwd false []) Sample.corpus "lda" 2).
Proof.
  split; [now apply set_order_bwd_ok|].
  split; [now apply set_order_fwd_ok|].
  split.
  - eexists. eexists. split; [vm_compute; reflexivity|].
    split; [left; reflexivity|]. split; [reflexivity|].
    simpl. intros Hs. inversion Hs as [|? ? _ Hhd]; subst.
    inversion Hhd as [|? ? Hle]; subst. discriminate Hle.
  - vm_compute. intros H. discriminate H.
Qed.

(** ** What the call does to the articles of the caller *)

Lemma run_backend_bertopic rt algo texts n :
  select_backend rt algo = BackendBERTopic ->
  match run_backend rt algo texts n with
  | Raised _ => True
  | Returned (_, ds) => ds = None
  end.
Proof.
  unfold run_backend. intros ->.
  now destruct (try_bertopic rt texts).
Qed.

Lemma run_backend_sklearn rt algo texts n ts :
  run_backend rt algo texts n = Returned (ts, None) ->
  select_backend rt algo = BackendBERTopic.
Proof.
  unfold run_backend.
  destruct (select_backend rt algo); [|reflexivity|].
  - destruct (perform_nmf rt texts n) as [e|[|ts' ds]]; discriminate.
  - destruct (perform_lda_sklearn rt texts n) as [e|[|ts' ds]]; discriminate.
Qed.

Lemma process_bertopic_untouched rt arts algo n :
  select_backend rt algo = BackendBERTopic ->
  fst (process_articles_for_topics rt arts algo n) = arts.
Proof.
  intros Hsel. unfold process_articles_for_topics.
  destruct (preprocessed_texts_of arts) as [|x xs]; [reflexivity|].
  pose proof (run_backend_bertopic rt algo (x :: xs) n Hsel) as Hb.
  destruct (run_backend rt algo (x :: xs) n) as [e|[[ts|] ds]];
    try reflexivity.
  subst ds. now destruct ts.
Qed.

(** C2 (amended).  The call never changes a key it reads of the article
    dicts handed to it ([article_id], [title], [newspaper], [url],
    [summary], [preprocessed_text]) and never adds or removes an article,
    but it does write to those very dicts: a run through scikit-learn
    (LDA or NMF) that returns a result has set [dominant_topic] and
    [topic_distribution] on every input article, with no copy and no
    side table.  Only on the BERTopic path are the dicts left exactly as
    they were. *)
Theorem C2_only_assignment_keys_written rt arts algo n :
  Forall2 same_input_fields arts
    (fst (process_articles_for_topics rt arts algo n))
  /\ (select_backend rt algo = BackendBERTopic ->
      fst (process_articles_for_topics rt arts algo n) = arts)
  /\ (select_backend rt algo <> BackendBERTopic ->
      forall r,
        snd (process_articles_for_topics rt arts algo n) = Returned (Some r) ->
        Forall (fun a => dominant_topic a <> None
                         /\ topic_distribution a <> None)
               (fst (process_articles_for_topics rt arts algo n))).
Proof.
  split; [apply process_frame|].
  split; [apply process_bertopic_untouched|].
  intros Hsel r Hr.
  destruct (process_articles_for_topics rt arts algo n) as [arts' o] eqn:Hrun.
  simpl in *. subst o.
  destruct (process_returned _ _ _ _ _ _ Hrun)
    as (ts & _ & _ & [[Hb _]|(dists & _ & Ha)]).
  - elim Hsel. eapply run_backend_sklearn; eauto.
  - eapply assign_topics_dominant; eauto.
Qed.

Lemma C2_only_assignment_keys_written_witness :
  let rt := Sample.rt Sample.set_order_fwd true [] in
  Forall2 same_input_fields Sample.corpus
    (fst (process_articles_for_topics rt Sample.corpus "nmf" 2))
  /\ Forall (fun a => dominant_topic a <> None /\ topic_distribution a <> None)
            (fst (process_articles_for_topics rt Sample.corpus "nmf" 2))
  /\ fst (process_articles_for_topics rt Sample.corpus "bertopic" 2)
     = Sample.corpus.
Proof.
  intros rt.
  destruct (C2_only_assignment_keys_written rt Sample.corpus "nmf" 2)
    as (Hframe & _ & Hset).
  destruct (C2_only_assignment_keys_written rt Sample.corpus "bertopic" 2)
    as (_ & Hsame & _).
  split; [exact Hframe|]. split.
  - eapply Hset; [discriminate | vm_compute; reflexivity].
  - apply Hsame. reflexivity.
Defined.

(** C2 as stated fails: after an LDA run the first article of the
    caller's list carries a dominant topic and a topic distribution that
    it did not have before the call. *)
Lemma C2_input_articles_mutated :
  let rt := Sample.rt Sample.set_order_fwd false [] in
  fst (process_articles_for_topics rt Sample.corpus "lda" 2) <> Sample.corpus
  /\ (dominant_topic <$> nth_error Sample.corpus 0) = Some None
  /\ (dominant_topic
        <$> nth_error
              (fst (process_articles_for_topics rt Sample.corpus "lda" 2)) 0)
     = Some (Some 0%Z)
  /\ (topic_distribution <$> nth_error Sample.corpus 0) = Some None
  /\ (topic_distribution
        <$> nth_error
              (fst (process_articles_for_topics rt Sample.corpus "lda" 2)) 0)
     = Some (Some [(9 # 10)%Q; (1 # 10)%Q]).
Proof.
  intros rt. split; [vm_compute; intros H; discriminate H|].
  repeat split; vm_compute; reflexivity.
Qed.

(** ** Assignment of the articles to the topics *)

Lemma indices_where_In {A : Type} (p : A -> bool) (l : list A) (k i : nat) :
  In i (indices_where p k l)
  <-> k <= i /\ exists x, nth_error l (i - k) = Some x /\ p x = true.
Proof.
  revert k. induction l as [|x l IH]; intros k; simpl.
  - split; [tauto|]. intros (_ & y & Hy & _). now destruct (i - k).
  - assert (Hrest : In i (indices_where p (S k) l)
                    <-> k < i /\ exists y, nth_error (x :: l) (i - k) = Some y
                                           /\ p y = true).
    { rewrite IH. split.
      - intros (Hle & y & Hy & Hp). split; [lia|]. exists y.
        replace (i - k) with (S (i - S k)) by lia. auto.
      - intros (Hlt & y & Hy & Hp). split; [lia|]. exists y.
        replace (i - k) with (S (i - S k)) in Hy by lia. auto. }
    destruct (p x) eqn:Hpx; simpl; rewrite Hrest; clear Hrest IH.
    + split.
      * intros [<-|(Hlt & H)]; [|split; [lia | exact H]].
        split; [lia|]. exists x. now rewrite Nat.sub_diag.
      * intros (Hle & y & Hy & Hp).
        destruct (Nat.eq_dec k i) as [->|Hne]; [now left|].
        right. split; [lia|]. eauto.
    + split.
      * intros (Hlt & H). split; [lia | exact H].
      * intros (Hle & y & Hy & Hp).
        destruct (Nat.eq_dec k i) as [->|Hne].
        -- rewrite Nat.sub_diag in Hy. simpl in Hy. congruence.
        -- split; [lia|]. eauto.
Qed.

Lemma members_In (arts : list article) (k : Z) (i : nat) :
  In i (members arts k)
  <-> exists a, nth_error arts i = Some a /\ has_dominant k a = true.
Proof.
  unfold members. rewrite indices_where_In, Nat.sub_0_r.
  split; [tauto|]. intros H. split; [lia | exact H].
Qed.

Lemma refs_at_indices (p : article -> bool) (pre l : list article) :
  refs_at (pre ++ l) (indices_where p (List.length pre) l)
  = map article_ref_of (List.filter p l).
Proof.
  revert pre. induction l as [|x l IH]; intros pre; simpl; [reflexivity|].
  specialize (IH (pre ++ [x])).
  rewrite <- app_assoc, length_app, Nat.add_1_r in IH. simpl in IH.
  destruct (p x); simpl; [|exact IH].
  rewrite IH, nth_error_app2, Nat.sub_diag by lia. reflexivity.
Qed.

(** The list attached to a topic holds the articles at the positions
    [members], and nothing else. *)
Lemma members_articles (arts : list article) (k : Z) :
  refs_at arts (members arts k)
  = map article_ref_of (List.filter (has_dominant k) arts).
Proof. exact (refs_at_indices (has_dominant k) [] arts). Qed.

Lemma NoDup_indices_where {A : Type} (p : A -> bool) (l : list A) (k : nat) :
  List.NoDup (indices_where p k l).
Proof.
  revert k. induction l as [|x l IH]; intros k; simpl; [constructor|].
  destruct (p x); [|apply IH]. constructor; [|apply IH].
  rewrite indices_where_In. lia.
Qed.

(** The scikit-learn wrappers number the topics 0, 1, ... *)
Lemma extract_topics_ids rt names i rows :
  map raw_topic_id (extract_topics rt names i rows)
  = map Z.of_nat (seq i (List.length rows)).
Proof.
  revert i. induction rows as [|row rows IH]; intros i; simpl;
    [reflexivity | now rewrite IH].
Qed.

Lemma extract_topics_length rt names i rows :
  List.length (extract_topics rt names i rows) = List.length rows.
Proof.
  revert i. induction rows as [|row rows IH]; intros i; simpl;
    [reflexivity | now rewrite IH].
Qed.

Lemma compose_topic_ids rt algo ts arts :
  map topic_id (topics (compose rt algo ts arts)) = map raw_topic_id ts.
Proof. unfold compose. simpl. now rewrite map_map. Qed.

Lemma run_backend_selected_fit rt algo texts n m :
  select_backend rt algo <> BackendBERTopic ->
  SKLEARN_AVAILABLE rt = true ->
  selected_fit rt algo texts n = Some m ->
  run_backend rt algo texts n
  = Returned (Some (extract_topics rt (feature_names m) 0 (components_ m)),
              Some (transform m)).
Proof.
  unfold run_backend, selected_fit, perform_nmf, perform_lda_sklearn,
    perform_sklearn.
  intros Hsel Hav Hfit. rewrite Hav. simpl.
  destruct (select_backend rt algo); [| congruence |]; now rewrite Hfit.
Qed.

(** A run through scikit-learn whose model has at least one component and
    no empty row returns a result. *)
Lemma process_sklearn_run rt arts algo n m :
  select_backend rt algo <> BackendBERTopic ->
  SKLEARN_AVAILABLE rt = true ->
  selected_fit rt algo (preprocessed_texts_of arts) n = Some m ->
  preprocessed_texts_of arts <> [] ->
  components_ m <> [] ->
  Forall (fun row => row <> []) (transform m) ->
  process_articles_for_topics rt arts algo n
  = (fst (assign_topics 0 arts (transform m)),
     Returned
       (Some (compose rt algo
                (extract_topics rt (feature_names m) 0 (components_ m))
                (fst (assign_topics 0 arts (transform m)))))).
Proof.
  intros Hsel Hav Hfit Htexts Hcomp Hrows.
  unfold process_articles_for_topics.
  rewrite (run_backend_selected_fit rt algo _ n m Hsel Hav Hfit).
  destruct (preprocessed_texts_of arts) as [|x xs]; [congruence|].
  destruct (components_ m) as [|row rows]; [congruence|]. simpl.
  destruct (assign_topics_total 0 arts (transform m) Hrows) as [Ho _].
  destruct (assign_topics 0 arts (transform m)) as [arts' o].
  simpl in *. now subst o.
Qed.

Lemma existsb_Zeqb_In (d : Z) (ids : list Z) :
  existsb (Z.eqb d) ids = true <-> In d ids.
Proof.
  rewrite existsb_exists. split.
  - intros (x & Hx & He). apply Z.eqb_eq in He. now subst.
  - intros H. exists d. split; [exact H | apply Z.eqb_refl].
Qed.

Lemma assignment_of_assigned (ids : list Z) (a : article) (k : Z) :
  In k ids ->
  (assignment_of ids a = AssignedTo k <-> has_dominant k a = true).
Proof.
  intros Hk. unfold assignment_of, has_dominant.
  destruct (dominant_topic a) as [d|]; [|split; discriminate].
  split.
  - destruct (existsb (Z.eqb d) ids); [|discriminate].
    intros [= ->]. apply Z.eqb_refl.
  - intros Hd. apply Z.eqb_eq in Hd. subst d.
    now rewrite (proj2 (existsb_Zeqb_In k ids) Hk).
Qed.

(** C3.  On a run through scikit-learn (the backends that return a
    distribution array) whose model has a component and no empty row, the
    call returns a result without raising, and every article of the list,
    in particular every one that survives the empty-text filter, is in
    exactly one state: either [AssignedTo k] for one topic id [k] of the
    result, and then it is listed at its position in the article list of
    the topic with that id and of no other topic, or [Unassigned], and then
    it is listed in no topic.  The topic ids are pairwise distinct, and the
    article list of a topic holds the articles at the listed positions.  An
    article whose index lies beyond the distribution array gets the
    dominant topic -1 and is unassigned. *)
Theorem C3_assignment_total rt arts algo n m :
  select_backend rt algo <> BackendBERTopic ->
  SKLEARN_AVAILABLE rt = true ->
  selected_fit rt algo (preprocessed_texts_of arts) n = Some m ->
  preprocessed_texts_of arts <> [] ->
  components_ m <> [] ->
  Forall (fun row => row <> []) (transform m) ->
  exists arts' r,
    process_articles_for_topics rt arts algo n = (arts', Returned (Some r))
    /\ List.length arts' = List.length arts
    /\ List.NoDup (map topic_id (topics r))
    /\ (forall t, In t (topics r) ->
          articles t = refs_at arts' (members arts' (topic_id t))
          /\ List.NoDup (members arts' (topic_id t)))
    /\ (forall i a', nth_error arts' i = Some a' ->
          (forall t, In t (topics r) ->
             (In i (members arts' (topic_id t))
              <-> assignment_of (map topic_id (topics r)) a'
                  = AssignedTo (topic_id t)))
          /\ (List.length (transform m) <= i ->
              dominant_topic a' = Some (-1)%Z
              /\ assignment_of (map topic_id (topics r)) a' = Unassigned)).
Proof.
  intros Hsel Hav Hfit Htexts Hcomp Hrows.
  rewrite (process_sklearn_run rt arts algo n m) by assumption.
  set (arts' := fst (assign_topics 0 arts (transform m))).
  set (ts := extract_topics rt (feature_names m) 0 (components_ m)).
  exists arts', (compose rt algo ts arts').
  split; [reflexivity|].
  split; [apply assign_topics_length|].
  assert (Hids : map topic_id (topics (compose rt algo ts arts'))
                 = map Z.of_nat (seq 0 (List.length (components_ m)))).
  { rewrite compose_topic_ids. apply extract_topics_ids. }
  split.
  { rewrite Hids. apply Finite.Injective_map_NoDup; [|apply seq_NoDup].
    intros x y. apply Nat2Z.inj. }
  split.
  { intros t Ht. split; [|apply NoDup_indices_where].
    rewrite members_articles.
    unfold compose in Ht. simpl in Ht. apply in_map_iff in Ht.
    destruct Ht as (raw & <- & Hraw). simpl.
    now apply topic_articles_spec. }
  intros i a' Hi. split.
  - intros t Ht. rewrite members_In, assignment_of_assigned.
    + split; [intros (a & Ha & Hd); congruence | eauto].
    + now apply in_map.
  - intros Hout.
    destruct (assign_topics_total 0 arts (transform m) Hrows) as [_ Hnth].
    fold arts' in Hnth. rewrite Hnth in Hi. simpl in Hi.
    destruct (nth_error arts i) as [a|]; [|discriminate].
    simpl in Hi. injection Hi as <-.
    unfold assigned_article.
    replace (i <? List.length (transform m))%nat with false
      by (symmetry; apply Nat.ltb_ge; exact Hout).
    split; [reflexivity|].
    unfold assignment_of. cbn [dominant_topic set_assignment].
    destruct (existsb (Z.eqb (-1)) _) eqn:He; [|reflexivity].
    apply existsb_Zeqb_In in He. rewrite Hids in He.
    apply in_map_iff in He. destruct He as (x & Hx & _). lia.
Qed.

Lemma C3_assignment_total_witness :
  let rt := Sample.rt Sample.set_order_fwd false [] in
  let arts := Sample.corpus_with_gap in
  let m := Sample.model (preprocessed_texts_of arts) in
  selected_fit rt "lda" (preprocessed_texts_of arts) 2 = Some m
  /\ List.length (transform m) = 2
  /\ exists arts' r a',
       process_articles_for_topics rt arts "lda" 2 = (arts', Returned (Some r))
       /\ List.length arts' = 3
       /\ nth_error arts' 2 = Some a'
       /\ dominant_topic a' = Some (-1)%Z
       /\ assignment_of (map topic_id (topics r)) a' = Unassigned.
Proof.
  intros rt arts m.
  split; [reflexivity|]. split; [reflexivity|].
  destruct (C3_assignment_total rt arts "lda" 2 m)
    as (arts' & r & Hrun & Hlen & _ & _ & Hstate).
  - vm_compute. discriminate.
  - reflexivity.
  - reflexivity.
  - vm_compute. discriminate.
  - vm_compute. discriminate.
  - vm_compute. repeat constructor; discriminate.
  - destruct (nth_error arts' 2) as [a'|] eqn:Ha.
    + exists arts', r, a'.
      destruct (Hstate 2 a' Ha) as [_ Hout].
      destruct Hout as [Hd Hu]; [vm_compute; lia|].
      repeat split; assumption.
    + apply nth_error_None in Ha. rewrite Hlen in Ha.
      vm_compute in Ha. lia.
Defined.

(** ** The empty corpus *)

Lemma preprocessed_texts_of_nil arts :
  Forall (fun a => truthy (preprocessed_text a) = false) arts ->
  preprocessed_texts_of arts = [].
Proof.
  unfold preprocessed_texts_of.
  induction 1 as [|a l Ha _ IH]; simpl; [reflexivity|]. now rewrite Ha.
Qed.

Lemma preprocess_articles_empty rt arts :
  Forall (fun a => preprocess_article rt a = "") arts ->
  Forall (fun a => truthy (preprocessed_text a) = false)
         (preprocess_articles rt arts).
Proof.
  unfold preprocess_articles.
  induction 1 as [|a l Ha _ IH]; simpl; constructor; [|exact IH].
  simpl. now rewrite Ha.
Qed.

(** C4 (amended).  When no article has a non-empty preprocessed text the
    call returns [None] without raising, without running a backend and
    without touching the articles, and [process_single_day] then writes
    no file and returns [None].  The [None] carries no failure kind: it
    is the value that is also returned when topic modelling fails. *)
Theorem C4_empty_corpus_returns_none rt algo n :
  (forall arts,
     Forall (fun a => truthy (preprocessed_text a) = false) arts ->
     process_articles_for_topics rt arts algo n = (arts, Returned None))
  /\ (forall date_str files,
        Forall (fun a => preprocess_article rt a = "")
               (get_articles_by_date rt date_str) ->
        process_single_day rt date_str algo n files = (Returned None, files)).
Proof.
  assert (H1 : forall arts,
             Forall (fun a => truthy (preprocessed_text a) = false) arts ->
             process_articles_for_topics rt arts algo n = (arts, Returned None)).
  { intros arts Hempty. unfold process_articles_for_topics.
    now rewrite preprocessed_texts_of_nil. }
  split; [exact H1|].
  intros date_str files Hempty. unfold process_single_day.
  destruct (get_articles_by_date rt date_str) as [|a l] eqn:Hdb;
    [reflexivity|].
  now rewrite H1 by (apply preprocess_articles_empty; exact Hempty).
Qed.

Lemma C4_empty_corpus_returns_none_witness :
  let rt := Sample.rt Sample.set_order_fwd false Sample.empty_corpus in
  Forall (fun a => truthy (preprocessed_text a) = false) Sample.empty_corpus
  /\ process_articles_for_topics rt Sample.empty_corpus "lda" 2
     = (Sample.empty_corpus, Returned None)
  /\ process_single_day rt "2025-01-15" "lda" 2 ∅ = (Returned None, ∅).
Proof.
  intros rt.
  assert (He : Forall (fun a => truthy (preprocessed_text a) = false)
                      Sample.empty_corpus)
    by (repeat constructor).
  destruct (C4_empty_corpus_returns_none rt "lda" 2) as [Hrun Hday].
  split; [exact He|]. split; [exact (Hrun _ He)|].
  apply Hday. repeat constructor.
Defined.

(** C4 as stated fails: the value returned for a corpus of empty texts is
    the value returned when the backend fails, so no reading of the return
    value tells [EmptyCorpus] from [BackendFailure]. *)
Lemma C4_failure_is_untyped :
  let empty_run :=
    snd (process_articles_for_topics
           (Sample.rt Sample.set_order_fwd false []) Sample.empty_corpus "lda" 2) in
  let failed_run :=
    snd (process_articles_for_topics
           (Sample.rt_bertopic_raises []) Sample.corpus "bertopic" 2) in
  preprocessed_texts_of Sample.empty_corpus = []
  /\ preprocessed_texts_of Sample.corpus <> []
  /\ empty_run = Returned None
  /\ failed_run = Returned None
  /\ ~ exists classify : outcome (option result) -> failure,
         classify empty_run = EmptyCorpus
         /\ classify failed_run = BackendFailure.
Proof.
  intros empty_run failed_run.
  assert (He : empty_run = Returned None) by (vm_compute; reflexivity).
  assert (Hf : failed_run = Returned None) by (vm_compute; reflexivity).
  split; [reflexivity|]. split; [vm_compute; discriminate|].
  split; [exact He|]. split; [exact Hf|].
  intros (classify & H1 & H2). rewrite He in H1. rewrite Hf in H2. congruence.
Qed.

(** ** The topic by source matrix *)

Lemma weight_of_zero (total : nat) : (weight_of 0 total == 0)%Q.
Proof. unfold weight_of. destruct (0 <? total)%nat; reflexivity. Qed.

Lemma newspapers_of_In rt arts s :
  set_iter_ok rt ->
  (In s (newspapers_of rt arts)
   <-> exists a, In a arts /\ default "" (newspaper a) = s).
Proof.
  intros Hset. unfold newspapers_of.
  destruct (Hset (map (fun a => default "" (newspaper a)) arts)) as [_ Hin].
  rewrite Hin, in_map_iff. split; intros (a & H1 & H2); eauto.
Qed.

(** C5.  In a composed result, every topic has, for every source observed
    in the corpus, one entry in [newspaper_counts] and one in
    [newspaper_weights]; the count is the number of articles of the topic
    that come from the source, the entries of a source with no article in
    the topic are 0 and 0.0, no source is listed twice, and the counts of
    a topic add up to the number of articles assigned to it. *)
Theorem C5_matrix_complete rt arts algo n arts' r t :
  set_iter_ok rt ->
  process_articles_for_topics rt arts algo n = (arts', Returned (Some r)) ->
  In t (topics r) ->
  (forall a, In a arts ->
     let s := default "" (newspaper a) in
     dict_get (newspaper_counts t) s = Some (count_in_topic (articles t) s)
     /\ exists w,
          dict_get (newspaper_weights t) s = Some w
          /\ (count_in_topic (articles t) s = 0 -> (w == 0)%Q))
  /\ List.NoDup (map fst (newspaper_counts t))
  /\ map fst (newspaper_weights t) = map fst (newspaper_counts t)
  /\ list_sum (map snd (newspaper_counts t)) = List.length (articles t).
Proof.
  intros Hset Hrun Ht.
  pose proof (process_frame rt arts algo n) as Hframe.
  rewrite Hrun in Hframe. simpl in Hframe.
  destruct (process_returned _ _ _ _ _ _ Hrun) as (ts & _ & -> & _).
  destruct (compose_source_order rt algo ts arts' t Hset Ht) as [Hkc Hkw].
  destruct (compose_topic rt algo ts arts' t Hset Ht)
    as (raw & _ & _ & Harts & Hc & Hw).
  split; [|split; [|split]].
  - intros a Ha s.
    assert (Hs : existsb (String.eqb s) (newspapers_of rt arts') = true).
    { apply existsb_eqb_In. unfold newspapers_of.
      rewrite (same_newspapers _ _ Hframe).
      apply (proj2 (Hset _)). apply in_map_iff. eauto. }
    rewrite Hc, Hw. unfold counts_of, weights_of.
    rewrite (dict_get_map (fun np => count_in_topic (articles t) np)).
    rewrite (dict_get_map
               (fun np => weight_of (count_in_topic (articles t) np)
                            (total_articles_from_newspaper arts' np))).
    rewrite Hs. split; [reflexivity|].
    eexists. split; [reflexivity|].
    intros ->. apply weight_of_zero.
  - rewrite Hkc. apply Hset.
  - now rewrite Hkc, Hkw.
  - rewrite Hc. unfold counts_of. rewrite map_map. simpl.
    apply count_in_topic_sum.
    + apply Hset.
    + intros ref Href. rewrite Harts in Href.
      apply in_map_iff in Href. destruct Href as (a & <- & Ha).
      apply filter_In in Ha. destruct Ha as [Ha _].
      apply newspapers_of_In; [exact Hset|]. eauto.
Qed.

Lemma C5_matrix_complete_witness :
  let rt := Sample.rt Sample.set_order_bwd false [] in
  set_iter_ok rt
  /\ exists arts' r t,
       process_articles_for_topics rt Sample.corpus "lda" 2
       = (arts', Returned (Some r))
       /\ In t (topics r)
       /\ dict_get (newspaper_counts t) "Alpha" = Some 0
       /\ dict_get (newspaper_counts t) "Beta" = Some 2
       /\ list_sum (map snd (newspaper_counts t)) = List.length (articles t).
Proof.
  intros rt.
  assert (Hset : set_iter_ok rt) by now apply set_order_bwd_ok.
  split; [exact Hset|].
  eexists. eexists. eexists.
  split; [vm_compute; reflexivity|].
  split; [left; reflexivity|].
  split; [reflexivity|]. split; [reflexivity|].
  eapply (C5_matrix_complete rt Sample.corpus "lda" 2).
  - exact Hset.
  - vm_compute. reflexivity.
  - left. reflexivity.
Defined.

(** ** Proportions *)





Lemma same_newspaper_keys arts arts' :
  Forall2 same_input_fields arts arts' ->
  Forall (fun a => newspaper a <> None) arts ->
  Forall (fun a => newspaper a <> None) arts'.
Proof.
  induction 1 as [|a a' l l' Ha _ IH]; intros Hall; [constructor|].
  inversion Hall as [|? ? Hhd Htl]; subst.
  destruct Ha as (_ & _ & Hn & _).
  constructor; [now rewrite Hn | now apply IH].
Qed.





(** ** The dominant topic *)

Lemma argmax_from_spec (l pre : list Q) (best : Q) (besti : nat) :
  (besti < List.length pre)%nat ->
  nth besti pre 0%Q = best ->
  (forall j, (j < List.length pre)%nat -> (nth j pre 0 <= best)%Q) ->
  (forall j, (j < besti)%nat -> (nth j pre 0 < best)%Q) ->
  let k := argmax_from best besti (List.length pre) l in
  (k < List.length (pre ++ l))%nat
  /\ (forall j, (j < List.length (pre ++ l))%nat ->
        (nth j (pre ++ l) 0 <= nth k (pre ++ l) 0)%Q)
  /\ (forall j, (j < k)%nat -> (nth j (pre ++ l) 0 < nth k (pre ++ l) 0)%Q).
Proof.
  revert pre best besti.
  induction l as [|x l IH]; intros pre best besti Hlt Hbest Hmax Hfirst; simpl.
  - rewrite app_nil_r. rewrite Hbest. auto.
  - assert (Hlen : List.length (pre ++ [x]) = S (List.length pre))
      by (rewrite length_app; simpl; lia).
    assert (Hold : forall j, (j < List.length pre)%nat ->
                             nth j (pre ++ [x]) 0%Q = nth j pre 0%Q)
      by (intros; now apply app_nth1).
    assert (Hnew : nth (List.length pre) (pre ++ [x]) 0%Q = x)
      by (rewrite app_nth2, Nat.sub_diag by lia; reflexivity).
    replace (pre ++ x :: l) with ((pre ++ [x]) ++ l)
      by (now rewrite <- app_assoc).
    rewrite <- Hlen.
    destruct (Qle_bool x best) eqn:Hx.
    + apply Qle_bool_iff in Hx. apply IH.
      * lia.
      * now rewrite Hold.
      * intros j Hj. rewrite Hlen in Hj.
        destruct (Nat.eq_dec j (List.length pre)) as [->|Hne].
        -- now rewrite Hnew.
        -- rewrite Hold by lia. apply Hmax. lia.
      * intros j Hj. rewrite Hold by lia. now apply Hfirst.
    + assert (Hgt : (best < x)%Q).
      { apply Qnot_le_lt. intros Hle. apply Qle_bool_iff in Hle. congruence. }
      apply IH.
      * lia.
      * exact Hnew.
      * intros j Hj. rewrite Hlen in Hj.
        destruct (Nat.eq_dec j (List.length pre)) as [->|Hne].
        -- rewrite Hnew. apply Qle_refl.
        -- rewrite Hold by lia. apply Qlt_le_weak.
           eapply Qle_lt_trans; [apply Hmax; lia | exact Hgt].
      * intros j Hj. rewrite Hold by lia.
        eapply Qle_lt_trans; [apply Hmax; lia | exact Hgt].
Qed.

(** [np.argmax] returns the lowest index that holds the maximum. *)
Lemma argmax_first_maximum (row : list Q) (k : nat) :
  argmax row = Some k ->
  (k < List.length row)%nat
  /\ (forall j, (j < List.length row)%nat -> (nth j row 0 <= nth k row 0)%Q)
  /\ (forall j, (j < k)%nat -> (nth j row 0 < nth k row 0)%Q).
Proof.
  destruct row as [|x l]; [discriminate|]. intros [= <-].
  apply (argmax_from_spec l [x] x 0); simpl.
  - lia.
  - reflexivity.
  - intros [|j] Hj; [apply Qle_refl | lia].
  - intros j Hj. lia.
Qed.

(** Without an empty text the two numberings agree. *)
Lemma text_position_aligned (arts : list article) (i : nat) :
  Forall (fun a => truthy (preprocessed_text a) = true) arts ->
  (i <= List.length arts)%nat ->
  text_position arts i = i.
Proof.
  unfold text_position, preprocessed_texts_of. intros Hall. revert i.
  induction Hall as [|a l Ha _ IH]; intros i Hi; simpl in *.
  - now replace i with 0 by lia.
  - destruct i as [|i]; [reflexivity|]. simpl. rewrite Ha. simpl.
    f_equal. apply IH. lia.
Qed.

(** The loop pairs the article in position [i] with row [i] of the
    array, and takes the first maximum of that row. *)
Lemma dominant_topic_of_row (arts : list article) (dists : list (list Q))
    (i : nat) (a' : article) :
  Forall (fun row => row <> []) dists ->
  nth_error (fst (assign_topics 0 arts dists)) i = Some a' ->
  (i < List.length dists)%nat ->
  exists k,
    argmax (nth i dists []) = Some k
    /\ dominant_topic a' = Some (Z.of_nat k)
    /\ topic_distribution a' = Some (nth i dists []).
Proof.
  intros Hrows Hi Hlt.
  destruct (assign_topics_total 0 arts dists Hrows) as [_ Hnth].
  rewrite Hnth in Hi. simpl in Hi.
  destruct (nth_error arts i) as [a|]; [|discriminate].
  simpl in Hi. injection Hi as <-. unfold assigned_article.
  rewrite (proj2 (Nat.ltb_lt _ _) Hlt).
  destruct (argmax (nth i dists [])) as [k|] eqn:Hk.
  - exists k. auto.
  - exfalso. destruct (nth i dists []) eqn:Hrow; [|discriminate].
    rewrite List.Forall_forall in Hrows.
    apply (Hrows []); [|reflexivity]. rewrite <- Hrow. now apply nth_In.
Qed.

(** C7 fails on the code.  In [corpus_with_gap] the article in position 1
    survives the filter and its text is the first one the backend sees,
    so its own distribution is row 0 of the array, (0.9, 0.1), whose
    arg-max is topic 0.  The loop indexes the array with the position in
    the unfiltered list: the article gets topic 1 and the distribution
    (0.1, 0.9) of the next text, the article with the empty text gets
    topic 0, and the last article gets -1. *)
Theorem C7_dominant_topic_misaligned :
  let rt := Sample.rt Sample.set_order_fwd false [] in
  let arts := Sample.corpus_with_gap in
  let dists := transform (Sample.model (preprocessed_texts_of arts)) in
  let arts' := fst (process_articles_for_topics rt arts "lda" 2) in
  (truthy <$> (preprocessed_text <$> nth_error arts 1)) = Some true
  /\ text_position arts 1 = 0
  /\ nth_error dists 0 = Some [(9 # 10)%Q; (1 # 10)%Q]
  /\ argmax [(9 # 10)%Q; (1 # 10)%Q] = Some 0
  /\ (dominant_topic <$> nth_error arts' 1) = Some (Some 1%Z)
  /\ (topic_distribution <$> nth_error arts' 1)
     = Some (Some [(1 # 10)%Q; (9 # 10)%Q])
  /\ (truthy <$> (preprocessed_text <$> nth_error arts 0)) = Some false
  /\ (dominant_topic <$> nth_error arts' 0) = Some (Some 0%Z)
  /\ (dominant_topic <$> nth_error arts' 2) = Some (Some (-1)%Z).
Proof. intros rt arts dists arts'. repeat split; vm_compute; reflexivity. Qed.

(** ** The outlier label *)







(** ** The article count *)

(** C9.  The [num_articles] of a composed result is the length of the
    article list handed to the call, articles with an empty text
    included; the number of texts the backend saw is not larger. *)
Theorem C9_num_articles_counts_all rt arts algo n arts' r :
  process_articles_for_topics rt arts algo n = (arts', Returned (Some r)) ->
  num_articles r = List.length arts
  /\ preprocessed_texts_of arts <> []
  /\ (List.length (preprocessed_texts_of arts) <= num_articles r)%nat.
Proof.
  intros Hrun.
  pose proof (process_frame rt arts algo n) as Hframe.
  rewrite Hrun in Hframe. simpl in Hframe.
  apply Forall2_length in Hframe.
  destruct (process_returned _ _ _ _ _ _ Hrun) as (ts & _ & -> & _).
  unfold compose. simpl. split; [now rewrite Hframe|]. split.
  - intros Hnil. unfold process_articles_for_topics in Hrun.
    rewrite Hnil in Hrun. discriminate Hrun.
  - rewrite <- Hframe. unfold preprocessed_texts_of.
    rewrite length_map. apply filter_length_le.
Qed.

Lemma C9_num_articles_counts_all_witness :
  let rt := Sample.rt Sample.set_order_fwd false [] in
  List.length Sample.corpus_with_gap = 3
  /\ List.length (preprocessed_texts_of Sample.corpus_with_gap) = 2
  /\ exists arts' r,
       process_articles_for_topics rt Sample.corpus_with_gap "lda" 2
       = (arts', Returned (Some r))
       /\ num_articles r = 3.
Proof.
  intros rt. split; [reflexivity|]. split; [reflexivity|].
  eexists. eexists. split; [vm_compute; reflexivity|].
  eapply (C9_num_articles_counts_all rt Sample.corpus_with_gap "lda" 2).
  vm_compute. reflexivity.
Defined.

(** ** The fallback to LDA *)




(** ** Where the hypotheses on the articles are needed *)

(** Without the [newspaper] key on every article the bound of C6 is lost:
    line 235 files an article without the key under the source [""],
    line 246 does not count it, and the weight of [""] comes out as 2. *)
Example weight_without_newspaper_key :
  exists r t,
    snd (process_articles_for_topics
           (Sample.rt Sample.set_order_fwd false []) Sample.corpus_no_key "lda" 2)
    = Returned (Some r)
    /\ In t (topics r)
    /\ newspaper_counts t = [("", 2)]
    /\ newspaper_weights t = [("", (2 # 1)%Q)]
    /\ ~ (2 # 1 <= 1)%Q.
Proof.
  eexists. eexists. split; [vm_compute; reflexivity|].
  split; [left; reflexivity|]. split; [reflexivity|]. split; [reflexivity|].
  intros H. unfold Qle in H. simpl in H. lia.
Qed.

(** On the BERTopic path line 216 reads whatever [dominant_topic] the
    article dict already holds: an article that arrives with topic 0 from
    an earlier run is listed under topic 0 although BERTopic labelled it
    as an outlier. *)
Example stale_dominant_topic_is_reused :
  let rt := Sample.rt Sample.set_order_fwd true [] in
  (fit_topics <$> BERTopic rt (preprocessed_texts_of Sample.corpus_stale))
  = Some [0%Z; (-1)%Z; 0%Z]
  /\ (dominant_topic <$> nth_error Sample.corpus_stale 1) = Some (Some 0%Z)
  /\ exists arts' r t,
       process_articles_for_topics rt Sample.corpus_stale "bertopic" 2
       = (arts', Returned (Some r))
       /\ In t (topics r) /\ topic_id t = 0%Z
       /\ members arts' (topic_id t) = [1].
Proof.
  intros rt. split; [reflexivity|]. split; [reflexivity|].
  eexists. eexists. eexists. split; [vm_compute; reflexivity|].
  split; [left; reflexivity|]. split; reflexivity.
Qed.

(** * Further properties *)

(** ** The backend wrappers *)

Lemma extract_topics_shape rt names i rows :
  Forall (fun t => List.length (raw_words t) = List.length (raw_weights t)
                   /\ (List.length (raw_words t) <= 10)%nat
                   /\ raw_count t = None)
         (extract_topics rt names i rows).
Proof.
  revert i. induction rows as [|row rows IH]; intros i; simpl; constructor;
    [|apply IH].
  unfold extract_topic, top_words_idx. simpl.
  rewrite !length_map. split; [reflexivity|]. split; [|reflexivity].
  apply firstn_le_length.
Qed.

(** [perform_lda_sklearn] and [perform_nmf], which are [perform_sklearn]
    at the two models: with the library present and a fitted model the
    wrapper returns one topic per component, numbered 0, 1, ... in the
    order of the components, each with as many weights as words and at
    most ten of them, together with the document-topic array as the model
    gave it. *)
Theorem sklearn_wrapper_topics rt fit texts n m :
  SKLEARN_AVAILABLE rt = true ->
  fit texts n = Some m ->
  exists ts,
    perform_sklearn rt fit texts n = Returned (SkTuple ts (transform m))
    /\ map raw_topic_id ts
       = map Z.of_nat (seq 0 (List.length (components_ m)))
    /\ Forall (fun t => List.length (raw_words t) = List.length (raw_weights t)
                        /\ (List.length (raw_words t) <= 10)%nat
                        /\ raw_count t = None) ts.
Proof.
  intros Hav Hfit. unfold perform_sklearn. rewrite Hav, Hfit. simpl.
  eexists. split; [reflexivity|]. split.
  - apply extract_topics_ids.
  - apply extract_topics_shape.
Qed.

Lemma sklearn_wrapper_topics_witness :
  let rt := Sample.rt Sample.set_order_fwd false [] in
  exists ts,
    perform_lda_sklearn rt ["governo legge"; "calcio partita"] 2
    = Returned (SkTuple ts (transform (Sample.model
                                         ["governo legge"; "calcio partita"])))
    /\ map raw_topic_id ts = [0%Z; 1%Z].
Proof.
  intros rt.
  destruct (sklearn_wrapper_topics rt (LatentDirichletAllocation rt)
              ["governo legge"; "calcio partita"] 2
              (Sample.model ["governo legge"; "calcio partita"]))
    as (ts & Hrun & Hids & _); [reflexivity | reflexivity |].
  exists ts. split; [exact Hrun | exact Hids].
Defined.

(** [try_bertopic]: with the library present and a fitted model the
    wrapper returns the rows of the topic table other than the outlier
    row, in the order of the table and with their counts, each with the
    words and weights of [get_topic] in step. *)
Theorem bertopic_wrapper_topics rt texts m :
  BERTOPIC_AVAILABLE rt = true ->
  BERTopic rt texts = Some m ->
  exists ts,
    try_bertopic rt texts = BtTuple (Some ts) (Some (fit_topics m))
    /\ map (fun t => (raw_topic_id t, raw_count t)) ts
       = map (fun row : Z * nat => (fst row, Some (snd row)))
             (List.filter (fun row : Z * nat => negb (Z.eqb (fst row) (-1)))
                          (topic_info m))
    /\ Forall (fun t =>
                 combine (raw_words t) (raw_weights t)
                 = get_topic m (raw_topic_id t)) ts.
Proof.
  intros Hav Hfit. unfold try_bertopic. rewrite Hav, Hfit. simpl.
  eexists. split; [reflexivity|]. unfold topic_representations. split.
  - rewrite map_map. reflexivity.
  - apply List.Forall_forall. intros t Ht. apply in_map_iff in Ht.
    destruct Ht as (row & <- & _). simpl.
    induction (get_topic m (fst row)) as [|[w q] l IH]; simpl;
      [reflexivity | now rewrite IH].
Qed.

Lemma bertopic_wrapper_topics_witness :
  let rt := Sample.rt Sample.set_order_fwd true [] in
  exists ts,
    try_bertopic rt ["governo legge"; "calcio partita"]
    = BtTuple (Some ts) (Some [0%Z; (-1)%Z])
    /\ map (fun t => (raw_topic_id t, raw_count t)) ts = [(0%Z, Some 2)].
Proof.
  intros rt.
  destruct (bertopic_wrapper_topics rt ["governo legge"; "calcio partita"]
              (Sample.model_bertopic ["governo legge"; "calcio partita"]))
    as (ts & Hrun & Hrows & _); [reflexivity | reflexivity |].
  exists ts. split; [exact Hrun | exact Hrows].
Defined.

(** ** Failures of the libraries *)

(** Without scikit-learn the wrappers return a pair where the caller
    unpacks four values: a call that reaches the LDA or the NMF branch
    raises [ValueError] instead of returning [None], and leaves the
    articles as they were. *)
Theorem missing_sklearn_raises rt arts algo n :
  SKLEARN_AVAILABLE rt = false ->
  select_backend rt algo <> BackendBERTopic ->
  preprocessed_texts_of arts <> [] ->
  process_articles_for_topics rt arts algo n = (arts, Raised ValueError).
Proof.
  intros Hav Hsel Htexts. unfold process_articles_for_topics.
  destruct (preprocessed_texts_of arts) as [|x xs]; [congruence|].
  unfold run_backend, perform_nmf, perform_lda_sklearn, perform_sklearn.
  rewrite Hav. simpl.
  destruct (select_backend rt algo); [reflexivity | congruence | reflexivity].
Qed.

(** An exception of scikit-learn leaves [process_articles_for_topics] as
    it was raised: the wrappers have no handler. *)
Theorem sklearn_failure_propagates rt arts algo n :
  SKLEARN_AVAILABLE rt = true ->
  select_backend rt algo <> BackendBERTopic ->
  preprocessed_texts_of arts <> [] ->
  selected_fit rt algo (preprocessed_texts_of arts) n = None ->
  process_articles_for_topics rt arts algo n = (arts, Raised LibraryError).
Proof.
  intros Hav Hsel Htexts Hfit. unfold process_articles_for_topics.
  destruct (preprocessed_texts_of arts) as [|x xs]; [congruence|].
  unfold run_backend, perform_nmf, perform_lda_sklearn, perform_sklearn.
  unfold selected_fit in Hfit. rewrite Hav. simpl.
  destruct (select_backend rt algo); [| congruence |]; now rewrite Hfit.
Qed.

(** An exception inside BERTopic is caught by [try_bertopic]: the call
    returns [None] and leaves the articles as they were. *)
Theorem bertopic_failure_returns_none rt arts algo n :
  select_backend rt algo = BackendBERTopic ->
  BERTopic rt (preprocessed_texts_of arts) = None ->
  process_articles_for_topics rt arts algo n = (arts, Returned None).
Proof.
  intros Hsel Hfit. unfold process_articles_for_topics.
  destruct (preprocessed_texts_of arts) as [|x xs]; [reflexivity|].
  unfold run_backend, try_bertopic. rewrite Hsel, Hfit.
  assert (Hav : BERTOPIC_AVAILABLE rt = true).
  { unfold select_backend in Hsel.
    destruct (String.eqb algo "nmf"); [discriminate|].
    destruct (BERTOPIC_AVAILABLE rt); [reflexivity|].
    rewrite andb_false_r in Hsel. discriminate. }
  now rewrite Hav.
Qed.

Lemma missing_sklearn_raises_witness :
  process_articles_for_topics Faults.rt_no_sklearn Sample.corpus "lda" 2
  = (Sample.corpus, Raised ValueError).
Proof.
  apply missing_sklearn_raises; [reflexivity | | ]; vm_compute; discriminate.
Defined.

Lemma sklearn_failure_propagates_witness :
  process_articles_for_topics (Faults.rt_strict []) Faults.single "nmf" 2
  = (Faults.single, Raised LibraryError).
Proof.
  apply sklearn_failure_propagates;
    [reflexivity | vm_compute; discriminate | vm_compute; discriminate
    | reflexivity].
Defined.

Lemma bertopic_failure_returns_none_witness :
  process_articles_for_topics (Sample.rt_bertopic_raises []) Sample.corpus
    "bertopic" 2
  = (Sample.corpus, Returned None).
Proof. apply bertopic_failure_returns_none; reflexivity. Defined.

(** ** The composed result *)

Lemma backend_part_finish rt arts by_topic nps ts :
  map backend_part (map (finish_topic rt arts by_topic nps) ts) = ts.
Proof.
  induction ts as [|[i w q c] ts IH]; simpl; [reflexivity|].
  now rewrite IH.
Qed.

(** A returned result has at least one topic, and its topics are the
    topics of the backend wrapper in the wrapper's order, with the ids,
    words, weights and counts the wrapper gave: nothing is renumbered,
    sorted, padded or cut.  The label of a topic is its first word
    capitalised, or [Miscellaneous] for a topic without words, and the
    date is the date of the run. *)
Theorem result_keeps_backend_topics rt arts algo n arts' r :
  process_articles_for_topics rt arts algo n = (arts', Returned (Some r)) ->
  exists ts ds,
    run_backend rt algo (preprocessed_texts_of arts) n = Returned (Some ts, ds)
    /\ map backend_part (topics r) = ts
    /\ num_topics r = List.length (topics r)
    /\ (0 < num_topics r)%nat
    /\ date r = now rt
    /\ Forall (fun t => label t = match words t with
                                  | [] => "Miscellaneous"
                                  | w :: _ => capitalize rt w
                                  end) (topics r).
Proof.
  intros Hrun.
  destruct (process_returned _ _ _ _ _ _ Hrun) as (ts & Hne & -> & Hpath).
  assert (Hb : exists ds, run_backend rt algo (preprocessed_texts_of arts) n
                          = Returned (Some ts, ds)).
  { destruct Hpath as [[Hb _]|(dists & Hb & _)]; eauto. }
  destruct Hb as (ds & Hb). exists ts, ds.
  split; [exact Hb|]. unfold compose. simpl.
  split; [apply backend_part_finish|].
  split; [now rewrite length_map|].
  split; [destruct ts; [congruence | simpl; lia]|].
  split; [reflexivity|].
  apply List.Forall_forall. intros t Ht. apply in_map_iff in Ht.
  destruct Ht as (raw & <- & _). reflexivity.
Qed.

Lemma result_keeps_backend_topics_witness :
  let rt := Sample.rt Sample.set_order_fwd true [] in
  exists arts' r,
    process_articles_for_topics rt Sample.corpus "bertopic" 5
    = (arts', Returned (Some r))
    /\ map topic_id (topics r) = [0%Z]
    /\ num_topics r = 1
    /\ map label (topics r) = ["Governo"].
Proof.
  intros rt. eexists. eexists. split; [vm_compute; reflexivity|].
  destruct (result_keeps_backend_topics rt Sample.corpus "bertopic" 5
              Sample.corpus
              (compose rt "bertopic"
                 (topic_representations
                    (Sample.model_bertopic (preprocessed_texts_of Sample.corpus)))
                 Sample.corpus))
    as (ts & ds & _ & _ & Hn & _); [vm_compute; reflexivity|].
  split; [reflexivity|]. split; [exact Hn | reflexivity].
Defined.

(** ** The two fields the assignment loop writes *)

Lemma assign_topics_returned i arts dists arts' :
  assign_topics i arts dists = (arts', Returned tt) ->
  forall j a', nth_error arts' j = Some a' ->
    exists a,
      nth_error arts j = Some a
      /\ a' = assigned_article dists (i + j) a
      /\ ((i + j < List.length dists)%nat ->
          argmax (nth (i + j) dists []) <> None).
Proof.
  revert i arts'. induction arts as [|a rest IH]; intros i arts'; simpl.
  - intros [= <-] [|j] a'; discriminate.
  - destruct (i <? List.length dists)%nat eqn:Hi.
    + destruct (argmax (nth i dists [])) as [k|] eqn:Hk; [|discriminate].
      destruct (assign_topics (S i) rest dists) as [rest' o] eqn:E.
      intros [= <- ->] [|j] a' Hj; simpl in Hj.
      * injection Hj as <-. exists a. rewrite Nat.add_0_r.
        split; [reflexivity|]. split; [|congruence].
        unfold assigned_article. now rewrite Hi, Hk.
      * destruct (IH _ _ E j a' Hj) as (a0 & Ha0 & Heq & Harg).
        exists a0. replace (i + S j) with (S i + j) by lia. auto.
    + destruct (assign_topics (S i) rest dists) as [rest' o] eqn:E.
      intros [= <- ->] [|j] a' Hj; simpl in Hj.
      * injection Hj as <-. exists a. rewrite Nat.add_0_r.
        split; [reflexivity|]. split.
        -- unfold assigned_article. now rewrite Hi.
        -- apply Nat.ltb_ge in Hi. lia.
      * destruct (IH _ _ E j a' Hj) as (a0 & Ha0 & Heq & Harg).
        exists a0. replace (i + S j) with (S i + j) by lia. auto.
Qed.

(** After a run through scikit-learn that returns a result, an article
    whose position lies inside the distribution array carries the row at
    its position as [topic_distribution] and, as [dominant_topic], the
    lowest index at which that row is maximal; an article whose position
    lies beyond the array carries -1 and the empty list. *)
Theorem assignment_fields rt arts algo n arts' r :
  process_articles_for_topics rt arts algo n = (arts', Returned (Some r)) ->
  select_backend rt algo <> BackendBERTopic ->
  exists ts dists,
    run_backend rt algo (preprocessed_texts_of arts) n
    = Returned (Some ts, Some dists)
    /\ forall i a', nth_error arts' i = Some a' ->
         ((i < List.length dists)%nat ->
          exists k,
            topic_distribution a' = Some (nth i dists [])
            /\ dominant_topic a' = Some (Z.of_nat k)
            /\ (k < List.length (nth i dists []))%nat
            /\ (forall j, (j < List.length (nth i dists []))%nat ->
                  (nth j (nth i dists []) 0 <= nth k (nth i dists []) 0)%Q)
            /\ (forall j, (j < k)%nat ->
                  (nth j (nth i dists []) 0 < nth k (nth i dists []) 0)%Q))
         /\ ((List.length dists <= i)%nat ->
             topic_distribution a' = Some []
             /\ dominant_topic a' = Some (-1)%Z).
Proof.
  intros Hrun Hsel.
  destruct (process_returned _ _ _ _ _ _ Hrun)
    as (ts & _ & _ & [[Hb _]|(dists & Hb & Ha)]).
  { elim Hsel. eapply run_backend_sklearn; eauto. }
  exists ts, dists. split; [exact Hb|].
  intros i a' Hi.
  destruct (assign_topics_returned 0 arts dists arts' Ha i a' Hi)
    as (a & _ & -> & Harg).
  simpl in *. unfold assigned_article. split.
  - intros Hlt. rewrite (proj2 (Nat.ltb_lt _ _) Hlt).
    destruct (argmax (nth i dists [])) as [k|] eqn:Hk;
      [|now elim (Harg Hlt)].
    exists k. destruct (argmax_first_maximum _ _ Hk) as (H1 & H2 & H3).
    simpl. auto.
  - intros Hge. rewrite (proj2 (Nat.ltb_ge _ _) Hge). simpl. auto.
Qed.

Lemma assignment_fields_witness :
  let rt := Sample.rt Sample.set_order_fwd false [] in
  exists arts' r a',
    process_articles_for_topics rt Sample.corpus "lda" 2
    = (arts', Returned (Some r))
    /\ nth_error arts' 1 = Some a'
    /\ topic_distribution a' = Some [(1 # 10)%Q; (9 # 10)%Q]
    /\ dominant_topic a' = Some 1%Z.
Proof.
  intros rt. eexists. eexists. eexists.
  split; [vm_compute; reflexivity|].
  split; [reflexivity|].
  destruct (assignment_fields rt Sample.corpus "lda" 2
              (fst (process_articles_for_topics rt Sample.corpus "lda" 2))
              (compose rt "lda"
                 (extract_topics rt
                    (feature_names (Sample.model (preprocessed_texts_of Sample.corpus)))
                    0
                    (components_ (Sample.model (preprocessed_texts_of Sample.corpus))))
                 (fst (process_articles_for_topics rt Sample.corpus "lda" 2))))
    as (ts & dists & _ & _).
  - vm_compute. reflexivity.
  - vm_compute. discriminate.
  - split; reflexivity.
Defined.

Lemma texts_without_gap (arts : list article) :
  Forall (fun a => truthy (preprocessed_text a) = true) arts ->
  map Some (preprocessed_texts_of arts) = map preprocessed_text arts.
Proof.
  unfold preprocessed_texts_of.
  induction 1 as [|a l Ha _ IH]; simpl; [reflexivity|].
  rewrite Ha. simpl. rewrite IH.
  destruct (preprocessed_text a); [reflexivity | discriminate].
Qed.

(** When no article has an empty text, the text of the article in
    position [i] is text [i] of the backend's input, so the row the loop
    stores on the article is the row the backend computed for that very
    text. *)
Theorem aligned_without_empty_text rt arts algo n arts' r ts dists :
  Forall (fun a => truthy (preprocessed_text a) = true) arts ->
  process_articles_for_topics rt arts algo n = (arts', Returned (Some r)) ->
  run_backend rt algo (preprocessed_texts_of arts) n
  = Returned (Some ts, Some dists) ->
  List.length (preprocessed_texts_of arts) = List.length arts
  /\ forall i a a' row,
       nth_error arts i = Some a ->
       nth_error arts' i = Some a' ->
       nth_error dists i = Some row ->
       (Some <$> nth_error (preprocessed_texts_of arts) i)
       = Some (preprocessed_text a)
       /\ text_position arts i = i
       /\ topic_distribution a' = Some row.
Proof.
  intros Hall Hrun Hb.
  pose proof (texts_without_gap arts Hall) as Htexts.
  split.
  { apply (f_equal (@List.length _)) in Htexts.
    now rewrite !length_map in Htexts. }
  intros i a a' row Ha Ha' Hrow.
  split.
  { rewrite <- nth_error_map, Htexts, nth_error_map, Ha. reflexivity. }
  split.
  { apply text_position_aligned; [exact Hall|].
    apply Nat.lt_le_incl. apply nth_error_Some. congruence. }
  destruct (process_returned _ _ _ _ _ _ Hrun)
    as (ts' & _ & _ & [[Hb' _]|(dists' & Hb' & Hloop)]); [congruence|].
  assert (dists' = dists) by congruence. subst dists'.
  destruct (assign_topics_returned 0 arts dists arts' Hloop i a' Ha')
    as (a0 & Ha0 & -> & Harg).
  simpl in *. unfold assigned_article.
  assert (Hlt : (i < List.length dists)%nat)
    by (apply nth_error_Some; congruence).
  rewrite (proj2 (Nat.ltb_lt _ _) Hlt).
  rewrite (nth_error_nth _ _ _ Hrow).
  destruct (argmax row) as [k|] eqn:Hk; [reflexivity|].
  elim (Harg Hlt). now rewrite (nth_error_nth _ _ _ Hrow).
Qed.

Lemma aligned_without_empty_text_witness :
  let rt := Sample.rt Sample.set_order_fwd false [] in
  Forall (fun a => truthy (preprocessed_text a) = true) Sample.corpus
  /\ text_position Sample.corpus 2 = 2
  /\ List.length (preprocessed_texts_of Sample.corpus) = 3.
Proof.
  intros rt.
  assert (Hall : Forall (fun a => truthy (preprocessed_text a) = true)
                        Sample.corpus) by (repeat constructor).
  split; [exact Hall|]. split; [reflexivity|].
  eapply (aligned_without_empty_text rt Sample.corpus "lda" 2).
  - exact Hall.
  - vm_compute. reflexivity.
  - vm_compute. reflexivity.
Defined.

(** ** Sizes of the topics *)

Lemma list_sum_map_add {A : Type} (f g : A -> nat) (l : list A) :
  list_sum (map (fun x => f x + g x) l)
  = list_sum (map f l) + list_sum (map g l).
Proof. induction l as [|x l IH]; simpl; [reflexivity | rewrite IH; lia]. Qed.

Lemma list_sum_map_zero {A : Type} (l : list A) :
  list_sum (map (fun _ => 0) l) = 0.
Proof. induction l; simpl; auto. Qed.

Lemma dominant_indicator_sum (ids : list Z) (a : article) (b : bool) :
  List.NoDup ids ->
  list_sum (map (fun k => if has_dominant k a && b then 1 else 0) ids)
  = if is_assigned ids a && b then 1 else 0.
Proof.
  unfold has_dominant, is_assigned.
  destruct (dominant_topic a) as [d|]; [|intros _; apply list_sum_map_zero].
  destruct b; [|intros _; rewrite andb_false_r;
                 erewrite map_ext; [apply list_sum_map_zero|];
                 intros; now rewrite andb_false_r].
  rewrite andb_true_r.
  induction 1 as [|k ids Hk Hnd IH]; simpl; [reflexivity|].
  rewrite andb_true_r. destruct (Z.eqb_spec d k) as [->|Hne]; simpl.
  - replace (existsb (Z.eqb k) ids) with false in IH.
    + simpl in IH. now rewrite IH.
    + symmetry. apply not_true_is_false. intros He.
      apply existsb_Zeqb_In in He. contradiction.
  - exact IH.
Qed.

(** The articles of all topics together, restricted by [q]. *)
Lemma topic_sizes_sum (ids : list Z) (q : article -> bool)
    (arts : list article) :
  List.NoDup ids ->
  list_sum (map (fun k => List.length
                            (List.filter (fun a => has_dominant k a && q a) arts))
                ids)
  = List.length (List.filter (fun a => is_assigned ids a && q a) arts).
Proof.
  intros Hnd. induction arts as [|a arts IH]; simpl.
  - apply list_sum_map_zero.
  - transitivity
      (list_sum (map (fun k => (if has_dominant k a && q a then 1 else 0)
                               + List.length
                                   (List.filter
                                      (fun a => has_dominant k a && q a) arts))
                     ids)).
    + f_equal. apply map_ext. intros k.
      destruct (has_dominant k a && q a); reflexivity.
    + rewrite list_sum_map_add, IH, (dominant_indicator_sum ids a (q a) Hnd).
      destruct (is_assigned ids a && q a); reflexivity.
Qed.

Lemma compose_article_counts rt algo ts arts :
  map (fun t => List.length (articles t)) (topics (compose rt algo ts arts))
  = map (fun k => List.length
                    (List.filter (fun a => has_dominant k a && true) arts))
        (map raw_topic_id ts).
Proof.
  unfold compose. simpl. rewrite !map_map. apply map_ext_in.
  intros raw Hraw. simpl. rewrite topic_articles_spec by exact Hraw.
  rewrite length_map. f_equal. apply filter_ext. intros a.
  now rewrite andb_true_r.
Qed.

(** The scikit-learn wrappers never give two topics the same id. *)
Lemma sklearn_ids_nodup rt arts algo n arts' r :
  process_articles_for_topics rt arts algo n = (arts', Returned (Some r)) ->
  select_backend rt algo <> BackendBERTopic ->
  List.NoDup (map topic_id (topics r)).
Proof.
  intros Hrun Hsel.
  destruct (process_returned _ _ _ _ _ _ Hrun)
    as (ts & _ & -> & [[Hb _]|(dists & Hb & _)]).
  { elim Hsel. eapply run_backend_sklearn; eauto. }
  rewrite compose_topic_ids.
  assert (Hids : exists names rows,
             ts = extract_topics rt names 0 rows).
  { revert Hb. unfold run_backend, perform_nmf, perform_lda_sklearn,
      perform_sklearn.
    destruct (select_backend rt algo); [| congruence |];
      destruct (SKLEARN_AVAILABLE rt); simpl; try discriminate.
    - destruct (NMF rt _ n); [|discriminate]. intros [= <- _]. eauto.
    - destruct (LatentDirichletAllocation rt _ n); [|discriminate].
      intros [= <- _]. eauto. }
  destruct Hids as (names & rows & ->). rewrite extract_topics_ids.
  apply Finite.Injective_map_NoDup; [|apply seq_NoDup].
  intros x y. apply Nat2Z.inj.
Qed.

(** When the topic ids of a result are pairwise distinct, no article is
    listed under two topics: the sizes of the article lists add up to
    the number of articles whose dominant topic is a topic of the result,
    which is at most [num_articles]. *)
Theorem topic_sizes_add_up rt arts algo n arts' r :
  process_articles_for_topics rt arts algo n = (arts', Returned (Some r)) ->
  List.NoDup (map topic_id (topics r)) ->
  list_sum (map (fun t => List.length (articles t)) (topics r))
  = List.length (List.filter (is_assigned (map topic_id (topics r))) arts')
  /\ (list_sum (map (fun t => List.length (articles t)) (topics r))
      <= num_articles r)%nat.
Proof.
  intros Hrun Hnd.
  destruct (process_returned _ _ _ _ _ _ Hrun) as (ts & _ & -> & _).
  rewrite compose_topic_ids in *.
  assert (Heq : list_sum (map (fun t => List.length (articles t))
                              (topics (compose rt algo ts arts')))
                = List.length
                    (List.filter (is_assigned (map raw_topic_id ts)) arts')).
  { rewrite compose_article_counts, topic_sizes_sum by exact Hnd.
    f_equal. apply filter_ext. intros a. now rewrite andb_true_r. }
  split; [exact Heq|]. rewrite Heq. unfold compose. simpl.
  apply filter_length_le.
Qed.

Lemma topic_sizes_add_up_witness :
  let rt := Sample.rt Sample.set_order_fwd false [] in
  exists arts' r,
    process_articles_for_topics rt Sample.corpus_with_gap "lda" 2
    = (arts', Returned (Some r))
    /\ map (fun t => List.length (articles t)) (topics r) = [1; 1]
    /\ num_articles r = 3
    /\ list_sum (map (fun t => List.length (articles t)) (topics r))
       = List.length (List.filter (is_assigned (map topic_id (topics r))) arts').
Proof.
  intros rt. eexists. eexists. split; [vm_compute; reflexivity|].
  split; [reflexivity|]. split; [reflexivity|].
  eapply (topic_sizes_add_up rt Sample.corpus_with_gap "lda" 2).
  - vm_compute. reflexivity.
  - eapply (sklearn_ids_nodup rt Sample.corpus_with_gap "lda" 2).
    + vm_compute. reflexivity.
    + vm_compute. discriminate.
Defined.

Lemma list_sum_map_le {A : Type} (f g : A -> nat) (l : list A) :
  (forall x, In x l -> (f x <= g x)%nat) ->
  (list_sum (map f l) <= list_sum (map g l))%nat.
Proof.
  induction l as [|x l IH]; intros H; simpl; [lia|].
  pose proof (H x (or_introl eq_refl)).
  assert (list_sum (map f l) <= list_sum (map g l))%nat
    by (apply IH; intros; apply H; now right).
  lia.
Qed.

Lemma count_in_topic_filter (p : article -> bool) (arts : list article)
    (s : string) :
  count_in_topic (map article_ref_of (List.filter p arts)) s
  = List.length
      (List.filter
         (fun a => p a && String.eqb (default "" (newspaper a)) s) arts).
Proof.
  unfold count_in_topic.
  induction arts as [|a arts IH]; simpl; [reflexivity|].
  destruct (p a); simpl; [|exact IH].
  destruct (String.eqb (default "" (newspaper a)) s); simpl; now rewrite IH.
Qed.

Lemma assigned_from_le_total (ids : list Z) (arts : list article) (s : string) :
  Forall (fun a => newspaper a <> None) arts ->
  (List.length
     (List.filter
        (fun a => is_assigned ids a
                  && String.eqb (default "" (newspaper a)) s) arts)
   <= total_articles_from_newspaper arts s)%nat.
Proof.
  unfold total_articles_from_newspaper.
  induction 1 as [|a l Ha _ IH]; simpl; [lia|].
  destruct (newspaper a) as [x|]; [|congruence]. simpl.
  destruct (is_assigned ids a); simpl;
    destruct (String.eqb x s); simpl; lia.
Qed.

(** When the topic ids are pairwise distinct and every article carries a
    [newspaper] key, the counts that the topics of a result hold for one
    source add up to at most the number of articles of that source: no
    article is counted for its source under two topics. *)
Theorem source_counts_add_up rt arts algo n arts' r s :
  set_iter_ok rt ->
  Forall (fun a => newspaper a <> None) arts ->
  process_articles_for_topics rt arts algo n = (arts', Returned (Some r)) ->
  List.NoDup (map topic_id (topics r)) ->
  (list_sum (map (fun t => default 0 (dict_get (newspaper_counts t) s))
                 (topics r))
   <= total_articles_from_newspaper arts s)%nat.
Proof.
  intros Hset Hkeys Hrun Hnd.
  pose proof (process_frame rt arts algo n) as Hframe.
  rewrite Hrun in Hframe. simpl in Hframe.
  destruct (process_returned _ _ _ _ _ _ Hrun) as (ts & _ & -> & _).
  rewrite compose_topic_ids in Hnd.
  rewrite <- (same_totals _ _ s Hframe).
  eapply Nat.le_trans;
    [|apply (assigned_from_le_total (map raw_topic_id ts));
      eapply same_newspaper_keys; eauto].
  rewrite <- (topic_sizes_sum (map raw_topic_id ts)
                (fun a => String.eqb (default "" (newspaper a)) s) arts' Hnd).
  rewrite map_map.
  assert (Hts : forall raw, In raw ts ->
             In (finish_topic rt arts' (group_articles ts arts')
                   (newspapers_of rt arts') raw)
                (topics (compose rt algo ts arts'))).
  { intros raw Hraw. unfold compose. simpl. now apply in_map. }
  unfold compose at 1. simpl. rewrite map_map.
  apply list_sum_map_le. intros raw Hraw.
  destruct (compose_topic rt algo ts arts' _ Hset (Hts raw Hraw))
    as (raw' & _ & Hid & Harts & Hc & _).
  rewrite Hc. unfold counts_of.
  rewrite (dict_get_map (fun np => count_in_topic _ np)).
  destruct (existsb (String.eqb s) (newspapers_of rt arts')); simpl; [|lia].
  rewrite topic_articles_spec, count_in_topic_filter by exact Hraw. lia.
Qed.

Lemma source_counts_add_up_witness :
  let rt := Sample.rt Sample.set_order_fwd false [] in
  exists arts' r,
    process_articles_for_topics rt Sample.corpus "lda" 2
    = (arts', Returned (Some r))
    /\ map (fun t => default 0 (dict_get (newspaper_counts t) "Beta"))
           (topics r) = [2; 0]
    /\ total_articles_from_newspaper Sample.corpus "Beta" = 2
    /\ (list_sum (map (fun t => default 0 (dict_get (newspaper_counts t) "Beta"))
                      (topics r))
        <= total_articles_from_newspaper Sample.corpus "Beta")%nat.
Proof.
  intros rt. eexists. eexists. split; [vm_compute; reflexivity|].
  split; [reflexivity|]. split; [reflexivity|].
  eapply (source_counts_add_up rt Sample.corpus "lda" 2).
  - now apply set_order_fwd_ok.
  - repeat constructor; discriminate.
  - vm_compute. reflexivity.
  - eapply (sklearn_ids_nodup rt Sample.corpus "lda" 2).
    + vm_compute. reflexivity.
    + vm_compute. discriminate.
Defined.

(** ** Saving the results *)

Lemma save_topic_results_spec (r : result) (files : gmap string result) :
  save_topic_results r files
  = (topics_filename (date r) (algorithm r),
     <[topics_filename (date r) (algorithm r) := r]> files).
Proof. reflexivity. Qed.

Lemma append_cancel_l (p x y : string) :
  (p ++ x)%string = (p ++ y)%string -> x = y.
Proof.
  induction p as [|c p IH]; simpl; intros H; [exact H|].
  injection H as H. auto.
Qed.

Lemma string_length_append (a b : string) :
  String.length (a ++ b)%string = String.length a + String.length b.
Proof. induction a as [|c a IH]; simpl; [reflexivity | now rewrite IH]. Qed.

Lemma append_cancel_r (a1 a2 suffix : string) :
  (a1 ++ suffix)%string = (a2 ++ suffix)%string -> a1 = a2.
Proof.
  revert a2. induction a1 as [|c a1 IH]; intros [|c2 a2] H; simpl in H.
  - reflexivity.
  - apply (f_equal String.length) in H. simpl in H.
    rewrite !string_length_append in H. simpl in H. lia.
  - apply (f_equal String.length) in H. simpl in H.
    rewrite !string_length_append in H. simpl in H. lia.
  - injection H as -> H. f_equal. auto.
Qed.

Lemma split_at_underscore (d1 d2 r1 r2 : string) :
  no_underscore d1 = true -> no_underscore d2 = true ->
  (d1 ++ String "_" r1)%string = (d2 ++ String "_" r2)%string ->
  d1 = d2 /\ r1 = r2.
Proof.
  revert d2. induction d1 as [|c d1 IH]; intros [|c2 d2] H1 H2 H;
    simpl in *.
  - injection H as H. auto.
  - injection H as <- _. discriminate H2.
  - injection H as -> _. discriminate H1.
  - injection H as -> H.
    apply andb_true_iff in H1, H2.
    destruct (IH d2 (proj2 H1) (proj2 H2) H) as [-> ->]. auto.
Qed.

(** For dates without an underscore, as ['%Y-%m-%d'] gives them, the file
    name tells the date and the algorithm apart: two names are equal only
    for the same date and the same algorithm. *)
Theorem topics_filename_injective (d1 a1 d2 a2 : string) :
  no_underscore d1 = true -> no_underscore d2 = true ->
  topics_filename d1 a1 = topics_filename d2 a2 ->
  d1 = d2 /\ a1 = a2.
Proof.
  intros H1 H2 H. unfold topics_filename in H.
  apply append_cancel_l in H.
  destruct (split_at_underscore _ _ _ _ H1 H2 H) as [-> Ha].
  split; [reflexivity|]. now apply append_cancel_r in Ha.
Qed.

Lemma topics_filename_injective_witness :
  no_underscore "2025-01-15" = true
  /\ topics_filename "2025-01-15" "lda"
     = "data/topics/topics_2025-01-15_lda.json"
  /\ (forall d a, no_underscore d = true ->
        topics_filename d a = topics_filename "2025-01-15" "lda" ->
        d = "2025-01-15" /\ a = "lda").
Proof.
  split; [reflexivity|]. split; [reflexivity|].
  intros d a Hd H.
  apply (topics_filename_injective d a "2025-01-15" "lda" Hd);
    [reflexivity | exact H].
Defined.

(** With an underscore in the date two different runs share a file. *)
Example topics_filename_collision :
  topics_filename "a_b" "c" = topics_filename "a" "b_c".
Proof. reflexivity. Qed.

(** Saving two results one after the other: the second is on disk under
    its name; the first is still there when the dates (without
    underscore) or the algorithms differ, and is replaced when both are
    the same; no other file changes. *)
Theorem save_twice (r1 r2 : result) (files : gmap string result) :
  no_underscore (date r1) = true -> no_underscore (date r2) = true ->
  let files1 := snd (save_topic_results r1 files) in
  let files2 := snd (save_topic_results r2 files1) in
  files2 !! fst (save_topic_results r2 files1) = Some r2
  /\ ((date r1, algorithm r1) <> (date r2, algorithm r2) ->
      files2 !! fst (save_topic_results r1 files) = Some r1)
  /\ ((date r1, algorithm r1) = (date r2, algorithm r2) ->
      files2 = snd (save_topic_results r2 files))
  /\ (forall f, f <> fst (save_topic_results r1 files) ->
                f <> fst (save_topic_results r2 files1) ->
                files2 !! f = files !! f).
Proof.
  intros H1 H2. rewrite !save_topic_results_spec. simpl.
  split; [apply lookup_insert_eq|]. split; [|split].
  - intros Hne. rewrite lookup_insert_ne, lookup_insert_eq; [reflexivity|].
    intros Heq. apply Hne.
    destruct (topics_filename_injective _ _ _ _ H2 H1 Heq) as [-> ->].
    reflexivity.
  - intros [= -> ->]. apply insert_insert_eq.
  - intros f Hf1 Hf2. rewrite !lookup_insert_ne by congruence. reflexivity.
Qed.

Lemma save_twice_witness :
  let r1 := compose (Sample.rt Sample.set_order_fwd false []) "lda" [] [] in
  let r2 := compose (Sample.rt Sample.set_order_fwd false []) "nmf" [] [] in
  (snd (save_topic_results r2 (snd (save_topic_results r1 ∅))))
    !! "data/topics/topics_2025-01-15_lda.json" = Some r1
  /\ (snd (save_topic_results r2 (snd (save_topic_results r1 ∅))))
       !! "data/topics/topics_2025-01-15_nmf.json" = Some r2.
Proof.
  intros r1 r2.
  destruct (save_twice r1 r2 ∅) as (Hsnd & Hfst & _);
    [reflexivity | reflexivity |].
  split; [apply Hfst; discriminate | exact Hsnd].
Defined.

(** ** [process_single_day] *)

Lemma preprocess_articles_length rt arts :
  List.length (preprocess_articles rt arts) = List.length arts.
Proof. unfold preprocess_articles. apply length_map. Qed.

(** A day that yields a result writes exactly one file.  Its name is
    built from the date of the run, not from the date that was
    processed, and from the requested algorithm; the result counts every
    row the database returned for the day. *)
Theorem process_single_day_saves rt date_str algo n files r files' :
  process_single_day rt date_str algo n files = (Returned (Some r), files') ->
  files' = <[topics_filename (now rt) algo := r]> files
  /\ date r = now rt
  /\ algorithm r = algo
  /\ num_articles r = List.length (get_articles_by_date rt date_str)
  /\ get_articles_by_date rt date_str <> [].
Proof.
  unfold process_single_day.
  destruct (get_articles_by_date rt date_str) as [|a l] eqn:Hdb;
    [discriminate|].
  destruct (process_articles_for_topics rt (preprocess_articles rt (a :: l))
              algo n) as [arts' o] eqn:Hrun.
  simpl. destruct o as [e|[r0|]]; try discriminate.
  intros [= -> <-].
  pose proof (process_frame rt (preprocess_articles rt (a :: l)) algo n)
    as Hframe.
  rewrite Hrun in Hframe. cbn [fst] in Hframe.
  apply Forall2_length in Hframe.
  rewrite preprocess_articles_length in Hframe.
  destruct (process_returned _ _ _ _ _ _ Hrun) as (ts & _ & -> & _).
  split; [reflexivity|]. split; [reflexivity|]. split; [reflexivity|].
  split; [|discriminate]. unfold compose. cbn [num_articles].
  now rewrite <- Hframe.
Qed.

Lemma process_single_day_saves_witness :
  exists r files',
    process_single_day Range.rt "2025-01-14" "lda" 2 ∅
    = (Returned (Some r), files')
    /\ files' = <["data/topics/topics_2025-01-16_lda.json" := r]> ∅
    /\ date r = "2025-01-16"
    /\ num_articles r = 3.
Proof.
  destruct (process_single_day Range.rt "2025-01-14" "lda" 2 ∅)
    as [[e|[r|]] files'] eqn:Hrun; try (vm_compute in Hrun; discriminate).
  exists r, files'. split; [reflexivity|].
  destruct (process_single_day_saves _ _ _ _ _ _ _ Hrun)
    as (Hfiles & Hdate & _ & Hnum & _).
  split; [exact Hfiles|]. split; [exact Hdate | exact Hnum].
Defined.

(** A day without rows, without usable text, with a failing backend or
    with an exception writes no file. *)
Theorem process_single_day_writes_only_results rt date_str algo n files o files' :
  process_single_day rt date_str algo n files = (o, files') ->
  (forall r, o <> Returned (Some r)) ->
  files' = files.
Proof.
  unfold process_single_day.
  destruct (get_articles_by_date rt date_str) as [|a l];
    [now intros [= <- <-]|].
  destruct (snd (process_articles_for_topics rt
                   (preprocess_articles rt (a :: l)) algo n))
    as [e|[r0|]]; intros [= <- <-] Hno; try reflexivity.
  now elim (Hno r0).
Qed.

Lemma process_single_day_writes_only_results_witness :
  process_single_day (Faults.rt_strict Faults.single) "2025-01-15" "lda" 2 ∅
  = (Raised LibraryError, ∅)
  /\ process_single_day (Faults.rt_strict []) "2025-01-15" "lda" 2 ∅
     = (Returned None, ∅).
Proof.
  split.
  - destruct (process_single_day (Faults.rt_strict Faults.single)
                "2025-01-15" "lda" 2 ∅) as [o files'] eqn:Hrun.
    assert (Ho : o = Raised LibraryError)
      by (apply (f_equal fst) in Hrun; vm_compute in Hrun; congruence).
    rewrite (process_single_day_writes_only_results _ _ _ _ _ _ _ Hrun);
      [now rewrite Ho | rewrite Ho; discriminate].
  - reflexivity.
Defined.

(** ** [process_date_range] *)

Lemma process_single_day_frame rt date_str algo n files o files' :
  process_single_day rt date_str algo n files = (o, files') ->
  (forall f, f <> topics_filename (now rt) algo -> files' !! f = files !! f)
  /\ (forall r, o = Returned (Some r) ->
        files' !! topics_filename (now rt) algo = Some r
        /\ date r = now rt /\ algorithm r = algo)
  /\ ((forall r, o <> Returned (Some r)) -> files' = files).
Proof.
  unfold process_single_day.
  destruct (get_articles_by_date rt date_str) as [|a l].
  { intros [= <- <-]. split; [reflexivity|]. split; [discriminate|auto]. }
  destruct (process_articles_for_topics rt (preprocess_articles rt (a :: l))
              algo n) as [arts' [e|[r0|]]] eqn:Hrun; simpl;
    intros [= <- <-].
  - split; [reflexivity|]. split; [discriminate|auto].
  - destruct (process_returned _ _ _ _ _ _ Hrun) as (ts & _ & -> & _).
    split; [|split].
    + intros f Hf. now apply lookup_insert_ne.
    + intros r [= <-]. split; [apply lookup_insert_eq | auto].
    + intros Hno. now elim (Hno (compose rt algo ts arts')).
  - split; [reflexivity|]. split; [discriminate|auto].
Qed.

Lemma days_in_range_step (current_date end_date : Z) :
  (current_date <= end_date)%Z ->
  days_in_range current_date end_date
  = S (days_in_range (current_date + one_day) end_date).
Proof.
  intros Hle. unfold days_in_range.
  replace (end_date - (current_date + one_day))%Z
    with ((end_date - current_date) + (-1) * one_day)%Z by lia.
  rewrite Z.div_add by (unfold one_day; lia).
  assert (0 <= (end_date - current_date) / one_day)%Z
    by (apply Z.div_pos; unfold one_day; lia).
  lia.
Qed.

Lemma dict_set_In {V : Type} (d : list (string * V)) (k : string) (v : V) :
  In v (map snd (dict_set d k v)).
Proof.
  induction d as [|[k' v'] d IH]; simpl; [now left|].
  destruct (String.eqb k' k); simpl; auto.
Qed.

Lemma dict_set_Forall {V : Type} (P : string * V -> Prop)
    (d : list (string * V)) (k : string) (v : V) :
  Forall P d -> (forall k', P (k', v)) -> Forall P (dict_set d k v).
Proof.
  intros Hd Hv. induction d as [|[k' v'] d IH]; simpl.
  - constructor; [apply Hv | constructor].
  - inversion Hd as [|? ? Hx Htl]; subst.
    destruct (String.eqb k' k); constructor; auto.
Qed.

Lemma dict_set_length {V : Type} (d : list (string * V)) (k : string) (v : V) :
  (List.length (dict_set d k v) <= S (List.length d))%nat.
Proof.
  induction d as [|[k' v'] d IH]; simpl; [lia|].
  destruct (String.eqb k' k); simpl; lia.
Qed.

Lemma date_loop_spec (today algo : string) (env : nat -> runtime)
    (strftime : Z -> string) (end_date : Z) (n : nat)
    (files0 : gmap string result) (fuel : nat) :
  (forall j, now (env j) = today) ->
  forall k current_date results files,
    (days_in_range current_date end_date < fuel)%nat ->
    Forall (fun p : string * result =>
              date (snd p) = today /\ algorithm (snd p) = algo) results ->
    (results = [] /\ files = files0
     \/ exists r, files !! topics_filename today algo = Some r
                  /\ In r (map snd results)) ->
    exists o files',
      date_loop fuel env strftime k current_date end_date algo n results files
      = Some (o, files')
      /\ (forall f, f <> topics_filename today algo ->
            files' !! f = files !! f)
      /\ forall res, o = Returned res ->
           Forall (fun p : string * result =>
                     date (snd p) = today /\ algorithm (snd p) = algo) res
           /\ (res = [] /\ files' = files0
               \/ exists r, files' !! topics_filename today algo = Some r
                            /\ In r (map snd res))
           /\ (List.length res
               <= List.length results + days_in_range current_date end_date)%nat.
Proof.
  intros Hclock. induction fuel as [|fuel IH];
    intros k current_date results files Hfuel Hres Hinv; [lia|].
  simpl. destruct (current_date <=? end_date)%Z eqn:Hle.
  2:{ exists (Returned results), files. split; [reflexivity|].
      split; [reflexivity|]. intros res [= <-]. repeat split; auto. lia. }
  apply Z.leb_le in Hle. rewrite (days_in_range_step _ _ Hle) in *.
  destruct (process_single_day (env k) (strftime current_date) algo n files)
    as [[e|tr] files1] eqn:Hday.
  { destruct (process_single_day_frame _ _ _ _ _ _ _ Hday) as (Hframe & _).
    rewrite Hclock in Hframe.
    exists (Raised e), files1. split; [reflexivity|].
    split; [exact Hframe | discriminate]. }
  destruct (process_single_day_frame _ _ _ _ _ _ _ Hday)
    as (Hframe & Hsaved & Hsame).
  rewrite Hclock in Hframe, Hsaved.
  destruct tr as [r|].
  - destruct (Hsaved r eq_refl) as (Hfile & Hdate & Halgo).
    destruct (IH (S k) (current_date + one_day)%Z
                (dict_set results (strftime current_date) r) files1)
      as (o & files' & Hloop & Hfr & Hout).
    + lia.
    + apply dict_set_Forall; [exact Hres | intros; simpl; auto].
    + right. exists r. split; [exact Hfile | apply dict_set_In].
    + exists o, files'. split; [exact Hloop|]. split.
      * intros f Hf. rewrite Hfr by exact Hf. now apply Hframe.
      * intros res Ho. destruct (Hout res Ho) as (H1 & H2 & H3).
        split; [exact H1|]. split; [exact H2|].
        pose proof (dict_set_length results (strftime current_date) r). lia.
  - assert (files1 = files) by (apply Hsame; discriminate). subst files1.
    destruct (IH (S k) (current_date + one_day)%Z results files)
      as (o & files' & Hloop & Hfr & Hout); [lia | exact Hres | exact Hinv |].
    exists o, files'. split; [exact Hloop|]. split; [exact Hfr|].
    intros res Ho. destruct (Hout res Ho) as (H1 & H2 & H3).
    split; [exact H1|]. split; [exact H2 | lia].
Qed.

(** A range of days, processed while the clock shows one date: the loop
    ends, and every day is saved under the one file name built from the
    date of the run and the algorithm.  No other file changes; when the
    loop returns, its dict has at most one entry per day, every result
    in it carries the date of the run, and the file holds one of these
    results, or nothing was written when no day gave a result. *)
Theorem process_date_range_one_file (today algo : string)
    (env : nat -> runtime) (strftime : Z -> string)
    (start_date end_date : Z) (n : nat) (files : gmap string result) :
  (forall j, now (env j) = today) ->
  exists o files',
    process_date_range env strftime start_date end_date algo n files
    = Some (o, files')
    /\ (forall f, f <> topics_filename today algo -> files' !! f = files !! f)
    /\ forall res, o = Returned res ->
         Forall (fun p : string * result =>
                   date (snd p) = today /\ algorithm (snd p) = algo) res
         /\ (res = [] /\ files' = files
             \/ exists r, files' !! topics_filename today algo = Some r
                          /\ In r (map snd res))
         /\ (List.length res <= days_in_range start_date end_date)%nat.
Proof.
  intros Hclock. unfold process_date_range.
  destruct (date_loop_spec today algo env strftime end_date n files
              (S (days_in_range start_date end_date)) Hclock
              0 start_date [] files)
    as (o & files' & Hloop & Hframe & Hout); [lia | constructor | auto |].
  exists o, files'. split; [exact Hloop|]. split; [exact Hframe|].
  intros res Ho. destruct (Hout res Ho) as (H1 & H2 & H3). simpl in H3. auto.
Qed.

Lemma process_date_range_one_file_witness :
  exists res files',
    process_date_range (fun _ => Range.rt) Range.strftime 0 one_day "lda" 2 ∅
    = Some (Returned res, files')
    /\ map fst res = ["2025-01-14"; "2025-01-15"]
    /\ map fst (map_to_list files')
       = ["data/topics/topics_2025-01-16_lda.json"]
    /\ forall f, f <> topics_filename "2025-01-16" "lda" ->
                 files' !! f = (∅ : gmap string result) !! f.
Proof.
  eexists. eexists. split; [vm_compute; reflexivity|].
  split; [vm_compute; reflexivity|]. split; [vm_compute; reflexivity|].
  destruct (process_date_range_one_file "2025-01-16" "lda"
              (fun _ => Range.rt) Range.strftime 0 one_day 2 ∅)
    as (o & files' & Hrun & Hframe & _); [reflexivity|].
  vm_compute in Hrun. injection Hrun as <- <-. exact Hframe.
Defined.

(** ** [extract_full_content] *)

Lemma nth_error_update_prefix {A : Type} (f : A -> A) (l : list A) (k i : nat) :
  nth_error (map f (firstn k l) ++ skipn k l) i
  = option_map (fun a => if (i <? k)%nat then f a else a) (nth_error l i).
Proof.
  revert k i. induction l as [|x l IH]; intros k i.
  - rewrite firstn_nil, skipn_nil. simpl. now destruct i.
  - destruct k as [|k]; simpl.
    + now destruct (nth_error (x :: l) i).
    + destruct i as [|i]; simpl; [reflexivity|]. exact (IH k i).
Qed.

Lemma same_feed_fields_all (l : list feed_article) :
  Forall2 same_feed_fields l l.
Proof. induction l; constructor; [repeat split | assumption]. Qed.

Lemma read_page_same_fields download a :
  same_feed_fields a (read_page download a).
Proof.
  unfold read_page. destruct (download (fa_url a)); repeat split.
Qed.

(** [extract_full_content] returns the whole list it was given, article
    by article in the same order: an article before the limit has been
    passed to the page reader, an article at or beyond the limit is
    untouched, and no article loses or changes its id, newspaper, title,
    summary, url, collection date, language or categories.  The limit is
    [max_articles] only when that is a positive number below the length
    of the list: a limit of 0 reads every article, like no limit. *)
Theorem extract_full_content_limit download articles_data max_articles :
  List.length (extract_full_content download articles_data max_articles)
  = List.length articles_data
  /\ Forall2 same_feed_fields articles_data
       (extract_full_content download articles_data max_articles)
  /\ (forall i,
        nth_error (extract_full_content download articles_data max_articles) i
        = option_map
            (fun a => if (i <? articles_to_process articles_data max_articles)%nat
                      then read_page download a else a)
            (nth_error articles_data i))
  /\ (forall m, max_articles = Some m -> (0 < m)%nat ->
        articles_to_process articles_data max_articles
        = Nat.min m (List.length articles_data))
  /\ extract_full_content download articles_data (Some 0)
     = map (read_page download) articles_data
  /\ extract_full_content download articles_data None
     = map (read_page download) articles_data.
Proof.
  assert (Hnth : forall i,
             nth_error (extract_full_content download articles_data
                          max_articles) i
             = option_map
                 (fun a =>
                    if (i <? articles_to_process articles_data max_articles)%nat
                    then read_page download a else a)
                 (nth_error articles_data i))
    by (intros i; apply nth_error_update_prefix).
  assert (Hall : forall mx, articles_to_process articles_data mx
                            = List.length articles_data ->
             extract_full_content download articles_data mx
             = map (read_page download) articles_data).
  { intros mx Hmx. unfold extract_full_content. rewrite Hmx.
    now rewrite firstn_all, skipn_all, app_nil_r. }
  split; [|split; [|split; [exact Hnth|split; [|split]]]].
  - unfold extract_full_content.
    rewrite length_app, length_map, <- length_app, firstn_skipn. reflexivity.
  - unfold extract_full_content.
    set (k := articles_to_process articles_data max_articles). clearbody k.
    clear Hnth Hall. revert k. induction articles_data as [|a l IH]; intros k.
    + rewrite firstn_nil, skipn_nil. constructor.
    + destruct k as [|k]; simpl.
      * apply same_feed_fields_all.
      * constructor; [apply read_page_same_fields | apply IH].
  - intros m -> Hm. unfold articles_to_process.
    replace (m =? 0)%nat with false by (symmetry; apply Nat.eqb_neq; lia).
    simpl. destruct (m <? List.length articles_data)%nat eqn:E.
    + apply Nat.ltb_lt in E. lia.
    + apply Nat.ltb_ge in E. lia.
  - apply Hall. reflexivity.
  - apply Hall. reflexivity.
Qed.

Lemma extract_full_content_limit_witness :
  (fa_content <$> nth_error
                    (extract_full_content Feed.download Feed.feed (Some 2)) 0)
  = Some (Some "testo")
  /\ (fa_content <$> nth_error
                       (extract_full_content Feed.download Feed.feed (Some 2)) 2)
     = Some None
  /\ nth_error (extract_full_content Feed.download Feed.feed (Some 2)) 2
     = nth_error Feed.feed 2
  /\ extract_full_content Feed.download Feed.feed (Some 0)
     = extract_full_content Feed.download Feed.feed None.
Proof.
  destruct (extract_full_content_limit Feed.download Feed.feed (Some 2))
    as (_ & _ & Hnth & _ & H0 & Hnone).
  split; [reflexivity|]. split; [reflexivity|].
  split; [rewrite Hnth; reflexivity|].
  now rewrite H0, Hnone.
Defined.

(** ** [create_topic_heatmap] *)

Lemma heads_columns {A B C : Type} (f : A -> B -> C) (t : B) (ts : list B)
    (nps : list A) :
  heads (map (fun s => map (f s) (t :: ts)) nps)
  = Some (map (fun s => f s t) nps, map (fun s => map (f s) ts) nps).
Proof.
  induction nps as [|s nps IH]; simpl; [reflexivity|].
  simpl in IH. now rewrite IH.
Qed.

(** Transposing the matrix built source by source gives the matrix built
    topic by topic. *)
Lemma zip_rows_columns {A B C : Type} (f : A -> B -> C) (ts : list B)
    (s : A) (nps : list A) :
  zip_rows (List.length ts) (map (fun s => map (f s) ts) (s :: nps))
  = map (fun t => map (fun s => f s t) (s :: nps)) ts.
Proof.
  induction ts as [|t ts IH]; [reflexivity|].
  cbn [List.length zip_rows].
  rewrite (heads_columns f t ts (s :: nps)).
  cbn [map]. f_equal. exact IH.
Qed.

Lemma zip_star_columns {A B C : Type} (f : A -> B -> C) (ts : list B)
    (nps : list A) :
  zip_star (map (fun s => map (f s) ts) nps)
  = match nps with
    | [] => []
    | _ :: _ => map (fun t => map (fun s => f s t) nps) ts
    end.
Proof.
  destruct nps as [|s nps]; [reflexivity|].
  unfold zip_star. simpl hd. rewrite length_map.
  apply zip_rows_columns.
Qed.

(** With Plotly present and a result that has topics, the heatmap has
    one row per topic, in the order of the topics, and one column per
    newspaper that occurs in the [newspaper_weights] of some topic, each
    newspaper once; the cell of a topic and a newspaper is the weight the
    topic holds for the newspaper, or 0 when it holds none.  When no
    topic holds any weight the matrix has no row at all, although the
    axis still has one label per topic.  Without Plotly there is no
    figure. *)
Theorem heatmap_cells rt r :
  set_iter_ok rt ->
  topics r <> [] ->
  create_topic_heatmap rt false r = None
  /\ exists h,
       create_topic_heatmap rt true r = Some h
       /\ List.NoDup (hm_x h)
       /\ (forall s, In s (hm_x h)
                     <-> exists t, In t (topics r)
                                   /\ In s (map fst (newspaper_weights t)))
       /\ List.length (hm_y h) = List.length (topics r)
       /\ hm_z h
          = match hm_x h with
            | [] => []
            | _ :: _ =>
                map (fun t =>
                       map (fun s =>
                              default 0%Q (dict_get (newspaper_weights t) s))
                           (hm_x h))
                    (topics r)
            end.
Proof.
  intros Hset Hts. split; [reflexivity|].
  unfold create_topic_heatmap.
  destruct (topics r) as [|t0 ts0]; [congruence|]. clear Hts.
  set (ts := t0 :: ts0).
  set (keys := flat_map (fun t => map fst (newspaper_weights t)) ts).
  destruct (Hset keys) as [Hnd Hin].
  eexists. split; [reflexivity|]. cbn [hm_x hm_y hm_z].
  split; [exact Hnd|]. split; [|split].
  - intros s. rewrite Hin. unfold keys. rewrite in_flat_map. reflexivity.
  - apply length_map.
  - apply (zip_star_columns
             (fun np t => default 0%Q (dict_get (newspaper_weights t) np))).
Qed.

Lemma heatmap_cells_witness :
  let rt := Sample.rt Sample.set_order_bwd false [] in
  exists arts' r h,
    process_articles_for_topics rt Sample.corpus "lda" 2
    = (arts', Returned (Some r))
    /\ create_topic_heatmap rt true r = Some h
    /\ hm_x h = ["Alpha"; "Beta"]
    /\ hm_y h = ["Topic 0: governo, legge, partita";
                 "Topic 1: calcio, partita, legge"]
    /\ List.NoDup (hm_x h).
Proof.
  intros rt. eexists. eexists.
  destruct (heatmap_cells rt
              (compose rt "lda"
                 (extract_topics rt
                    (feature_names (Sample.model (preprocessed_texts_of Sample.corpus)))
                    0
                    (components_ (Sample.model (preprocessed_texts_of Sample.corpus))))
                 (fst (process_articles_for_topics rt Sample.corpus "lda" 2))))
    as (_ & h & Hh & Hnd & _).
  - now apply set_order_bwd_ok.
  - vm_compute. discriminate.
  - exists h. split; [vm_compute; reflexivity|].
    split; [exact Hh|].
    assert (Hev : Some h = create_topic_heatmap rt true
                    (compose rt "lda"
                       (extract_topics rt
                          (feature_names (Sample.model (preprocessed_texts_of Sample.corpus)))
                          0
                          (components_ (Sample.model (preprocessed_texts_of Sample.corpus))))
                       (fst (process_articles_for_topics rt Sample.corpus "lda" 2))))
      by (symmetry; exact Hh).
    vm_compute in Hev. injection Hev as ->.
    split; [reflexivity|]. split; [reflexivity | exact Hnd].
Defined.

Lemma process_returned_nonempty rt arts algo n arts' r :
  process_articles_for_topics rt arts algo n = (arts', Returned (Some r)) ->
  arts <> [].
Proof. intros Hrun ->. discriminate Hrun. Qed.

(** The heatmap of a result of the pipeline: its columns are the sources
    of the corpus, each once, it has one row per topic and one cell per
    topic and source, and every cell is a weight that the topic holds:
    the default 0 of line 68 is never used. *)
Theorem heatmap_of_pipeline_result rt arts algo n arts' r :
  set_iter_ok rt ->
  process_articles_for_topics rt arts algo n = (arts', Returned (Some r)) ->
  exists h,
    create_topic_heatmap rt true r = Some h
    /\ Permutation (hm_x h) (newspapers_of rt arts)
    /\ hm_x h <> []
    /\ List.length (hm_z h) = num_topics r
    /\ Forall (fun row => List.length row = List.length (hm_x h)) (hm_z h)
    /\ (forall t s, In t (topics r) -> In s (hm_x h) ->
          dict_get (newspaper_weights t) s <> None).
Proof.
  intros Hset Hrun.
  pose proof (process_returned_nonempty _ _ _ _ _ _ Hrun) as Harts.
  pose proof (process_frame rt arts algo n) as Hframe.
  rewrite Hrun in Hframe. cbn [fst] in Hframe.
  destruct (process_returned _ _ _ _ _ _ Hrun) as (ts & Hne & -> & _).
  assert (HN : newspapers_of rt arts' = newspapers_of rt arts)
    by (unfold newspapers_of; now rewrite (same_newspapers _ _ Hframe)).
  assert (Hkeys : forall t, In t (topics (compose rt algo ts arts')) ->
             map fst (newspaper_weights t) = newspapers_of rt arts).
  { intros t Ht. rewrite <- HN.
    apply (compose_source_order rt algo ts arts' t Hset Ht). }
  assert (Hsome : forall t s, In t (topics (compose rt algo ts arts')) ->
             In s (newspapers_of rt arts) ->
             dict_get (newspaper_weights t) s <> None).
  { intros t s Ht Hs.
    destruct (compose_topic rt algo ts arts' t Hset Ht)
      as (raw & _ & _ & _ & _ & ->).
    unfold weights_of.
    rewrite (dict_get_map
               (fun np => weight_of (count_in_topic (articles t) np)
                            (total_articles_from_newspaper arts' np))).
    rewrite HN, (proj2 (existsb_eqb_In s _) Hs). discriminate. }
  assert (Hlen : num_topics (compose rt algo ts arts')
                 = List.length (topics (compose rt algo ts arts')))
    by (unfold compose; simpl; now rewrite length_map).
  rewrite Hlen. clear Hlen.
  unfold create_topic_heatmap. cbn [negb].
  destruct (topics (compose rt algo ts arts')) as [|t0 ts0] eqn:Htop.
  { unfold compose in Htop. simpl in Htop. destruct ts; [congruence|].
    discriminate Htop. }
  set (tsr := t0 :: ts0) in *.
  set (keys := flat_map (fun t => map fst (newspaper_weights t)) tsr).
  assert (Hk : forall s, In s keys <-> In s (newspapers_of rt arts)).
  { intros s. unfold keys. rewrite in_flat_map. split.
    - intros (t & Ht & Hs). now rewrite <- (Hkeys t Ht).
    - intros Hs. exists t0. split; [now left|].
      rewrite (Hkeys t0) by now left. exact Hs. }
  destruct (Hset keys) as [Hnd Hin].
  assert (Hx : set_iter rt keys <> []).
  { destruct arts as [|a arts0]; [congruence|].
    assert (Ha : In (default "" (newspaper a)) (set_iter rt keys)).
    { apply Hin, Hk. apply newspapers_of_In; [exact Hset|].
      exists a. split; [now left | reflexivity]. }
    intros Hnil. rewrite Hnil in Ha. exact Ha. }
  eexists. split; [reflexivity|]. cbn [hm_x hm_z].
  split.
  { apply Permutation.NoDup_Permutation; [exact Hnd | apply Hset|].
    intros s. rewrite Hin. apply Hk. }
  split; [exact Hx|].
  rewrite (zip_star_columns
             (fun np t => default 0%Q (dict_get (newspaper_weights t) np))).
  destruct (set_iter rt keys) as [|s0 x0] eqn:Hxs; [congruence|].
  split; [apply length_map|]. split.
  - apply List.Forall_forall. intros row Hrow.
    apply in_map_iff in Hrow. destruct Hrow as (t & <- & _).
    now rewrite length_map.
  - intros t s Ht Hs. apply Hsome; [exact Ht|]. apply Hk, Hin. exact Hs.
Qed.

Lemma heatmap_of_pipeline_result_witness :
  let rt := Sample.rt Sample.set_order_bwd false [] in
  set_iter_ok rt
  /\ exists arts' r h,
       process_articles_for_topics rt Sample.corpus "lda" 2
       = (arts', Returned (Some r))
       /\ create_topic_heatmap rt true r = Some h
       /\ hm_z h = [[0%Q; (2 # 2)%Q]; [1%Q; (0 # 2)%Q]]
       /\ Permutation (hm_x h) (newspapers_of rt Sample.corpus).
Proof.
  intros rt.
  assert (Hset : set_iter_ok rt) by now apply set_order_bwd_ok.
  split; [exact Hset|].
  eexists. eexists.
  destruct (heatmap_of_pipeline_result rt Sample.corpus "lda" 2
              (fst (process_articles_for_topics rt Sample.corpus "lda" 2))
              (compose rt "lda"
                 (extract_topics rt
                    (feature_names (Sample.model (preprocessed_texts_of Sample.corpus)))
                    0
                    (components_ (Sample.model (preprocessed_texts_of Sample.corpus))))
                 (fst (process_articles_for_topics rt Sample.corpus "lda" 2))))
    as (h & Hh & Hperm & _); [exact Hset | vm_compute; reflexivity|].
  exists h. split; [vm_compute; reflexivity|]. split; [exact Hh|].
  split; [|exact Hperm].
  assert (Hev : Some h = create_topic_heatmap rt true
                  (compose rt "lda"
                     (extract_topics rt
                        (feature_names (Sample.model (preprocessed_texts_of Sample.corpus)))
                        0
                        (components_ (Sample.model (preprocessed_texts_of Sample.corpus))))
                     (fst (process_articles_for_topics rt Sample.corpus "lda" 2))))
    by (symmetry; exact Hh).
  vm_compute in Hev. injection Hev as ->. vm_compute. reflexivity.
Defined.

(** ** The top words of a topic *)

Lemma StronglySorted_snoc {A : Type} (R : A -> A -> Prop) (l : list A) (a : A) :
  StronglySorted R l -> Forall (fun y => R y a) l ->
  StronglySorted R (l ++ [a]).
Proof.
  induction 1 as [|x l Hl IH Hx]; intros Hall; simpl.
  - constructor; constructor.
  - inversion Hall as [|? ? Hxa Hla]; subst.
    constructor; [now apply IH|].
    apply Forall_app. split; [exact Hx | constructor; [exact Hxa | constructor]].
Qed.

Lemma StronglySorted_rev {A : Type} (R : A -> A -> Prop) (l : list A) :
  StronglySorted R l -> StronglySorted (fun x y => R y x) (rev l).
Proof.
  induction 1 as [|x l Hl IH Hx]; simpl; [constructor|].
  apply StronglySorted_snoc; [exact IH|].
  apply List.Forall_forall. intros y Hy. apply in_rev in Hy.
  rewrite List.Forall_forall in Hx. now apply Hx.
Qed.

Lemma StronglySorted_firstn {A : Type} (R : A -> A -> Prop) (k : nat)
    (l : list A) :
  StronglySorted R l -> StronglySorted R (firstn k l).
Proof.
  intros Hl. revert k. induction Hl as [|x l Hl IH Hx]; intros [|k]; simpl;
    try constructor; [apply IH|].
  apply List.Forall_forall. intros y Hy.
  rewrite List.Forall_forall in Hx. apply Hx.
  revert Hy. clear. revert k. induction l as [|z l IHl]; intros [|k]; simpl;
    try tauto.
  intros [->|H]; [now left | right; eauto].
Qed.

Lemma StronglySorted_map {A B : Type} (R : B -> B -> Prop) (f : A -> B)
    (l : list A) :
  StronglySorted (fun i j => R (f i) (f j)) l -> StronglySorted R (map f l).
Proof.
  induction 1 as [|x l Hl IH Hx]; simpl; constructor; [exact IH|].
  apply List.Forall_forall. intros y Hy. apply in_map_iff in Hy.
  destruct Hy as (z & <- & Hz). rewrite List.Forall_forall in Hx. now apply Hx.
Qed.

Lemma StronglySorted_app_cross {A : Type} (R : A -> A -> Prop)
    (l1 l2 : list A) (x y : A) :
  StronglySorted R (l1 ++ l2) -> In x l1 -> In y l2 -> R x y.
Proof.
  induction l1 as [|a l1 IH]; simpl; [tauto|].
  intros Hs [->|Hx] Hy.
  - apply StronglySorted_inv in Hs. destruct Hs as [_ Hall].
    rewrite List.Forall_forall in Hall. apply Hall, in_or_app. now right.
  - apply StronglySorted_inv in Hs. destruct Hs as [Hs _]. now apply IH.
Qed.

(** When [argsort] keeps its contract on the row of a component, the
    wrappers give the topic its [min(10, V)] heaviest words, heaviest
    first: the weights are in descending order, every entry of the row
    that is left out is at most every weight that is kept, and the word
    at each rank is the feature name at the position the weight comes
    from. *)
Theorem top_words_ranked rt names topic_idx row :
  argsort_ascending rt row ->
  let t := extract_topic rt names topic_idx row in
  StronglySorted (fun x y => (y <= x)%Q) (raw_weights t)
  /\ List.length (raw_weights t) = Nat.min 10 (List.length row)
  /\ raw_words t = map (fun i => nth i names "") (top_words_idx rt row)
  /\ raw_weights t = map (fun i => nth i row 0%Q) (top_words_idx rt row)
  /\ (forall i j, In i (top_words_idx rt row) ->
        (j < List.length row)%nat -> ~ In j (top_words_idx rt row) ->
        (nth j row 0 <= nth i row 0)%Q).
Proof.
  intros [Hsorted Hperm]. simpl. unfold top_words_idx.
  assert (Hlen : List.length (argsort rt row) = List.length row)
    by (rewrite (Permutation_length Hperm); apply length_seq).
  split.
  { apply (StronglySorted_map (fun x y => (y <= x)%Q)
             (fun i => nth i row 0%Q)).
    apply StronglySorted_firstn.
    apply (StronglySorted_rev
             (fun i j => (nth i row 0 <= nth j row 0)%Q)). exact Hsorted. }
  split.
  { rewrite length_map, length_firstn, length_rev, Hlen. reflexivity. }
  split; [reflexivity|]. split; [reflexivity|].
  intros i j Hi Hj Hnot.
  rewrite firstn_rev in Hi, Hnot. rewrite <- in_rev in Hi, Hnot.
  set (k := List.length (argsort rt row) - 10) in *.
  assert (Hin : In j (argsort rt row)).
  { apply (Permutation_in j (Permutation_sym Hperm)).
    apply in_seq. lia. }
  rewrite <- (firstn_skipn k (argsort rt row)) in Hin, Hsorted.
  apply in_app_or in Hin. destruct Hin as [Hin|Hin]; [|contradiction].
  exact (StronglySorted_app_cross _ _ _ j i Hsorted Hin Hi).
Qed.

Lemma top_words_ranked_witness :
  let rt := Sample.rt Sample.set_order_fwd false [] in
  let row := [(5 # 1)%Q; (3 # 1)%Q; (0 # 1)%Q; (1 # 1)%Q] in
  argsort rt row = [2; 3; 1; 0]
  /\ raw_words (extract_topic rt ["governo"; "legge"; "calcio"; "partita"] 0 row)
     = ["governo"; "legge"; "partita"; "calcio"]
  /\ StronglySorted (fun x y => (y <= x)%Q)
       (raw_weights
          (extract_topic rt ["governo"; "legge"; "calcio"; "partita"] 0 row)).
Proof.
  intros rt row. split; [reflexivity|]. split; [reflexivity|].
  apply (top_words_ranked rt ["governo"; "legge"; "calcio"; "partita"] 0 row).
  split.
  - change (argsort rt row) with [2; 3; 1; 0].
    repeat constructor; unfold Qle; simpl; lia.
  - change (argsort rt row) with [2; 3; 1; 0]. simpl.
    apply Permutation.NoDup_Permutation.
    + repeat constructor; simpl; intuition lia.
    + repeat constructor; simpl; intuition lia.
    + intros x. simpl. intuition lia.
Defined.
